(** * KudExtract: the statement-extraction pipeline of [src/KudExtract.py]

    A shallow embedding of the class [KudExtract]: the line grouper
    ([__extract_lines]), the four cleaning passes ([__parse_numbers],
    [__clean_date], [__remove_useless_tokens], [__clean_text]), the two
    filters ([__filter_lines], [__filter_tokens]) and the record builder
    ([__transform_to_json]).

    Conventions of the embedding.
    - A Python [str] is a [string] whose characters are code points below
      256 (Latin-1); the character classes below are the ones Python's
      [re] and [str.strip] use on those code points.
    - A Python [float] is a binary64 value, [spec_float] with precision 53
      and maximal exponent 1024.
    - A [dict] is an association list in insertion order.
    - A raised exception is a value of [result]. *)

From Stdlib Require Import Bool Arith ZArith Lia List Ascii String.
From Stdlib Require Import SpecFloat DecimalString.
Import ListNotations.

Set Warnings "-register-all".

Local Open Scope string_scope.
Local Open Scope list_scope.

(** ** Exceptions *)

Inductive exn : Type :=
| AttributeError
| KeyError
| TypeError
| ValueError.

Inductive result (A : Type) : Type :=
| Ok (a : A)
| Raise (e : exn).

Arguments Ok {A} a.
Arguments Raise {A} e.

Definition bind {A B : Type} (m : result A) (k : A -> result B) : result B :=
  match m with
  | Ok a => k a
  | Raise e => Raise e
  end.

Notation "x <- m ;; k" := (bind m (fun x => k))
  (at level 61, m at next level, right associativity).

(** [for x in xs: ys.append(f x)], stopping at the first exception. *)
Fixpoint mapM {A B : Type} (f : A -> result B) (xs : list A) : result (list B) :=
  match xs with
  | [] => Ok []
  | x :: xs' => y <- f x ;; ys <- mapM f xs' ;; Ok (y :: ys)
  end.

(** [for x in xs: s = f s x], stopping at the first exception. *)
Fixpoint foldM {A S : Type} (f : S -> A -> result S) (s : S) (xs : list A)
    : result S :=
  match xs with
  | [] => Ok s
  | x :: xs' => s' <- f s x ;; foldM f s' xs'
  end.

(** ** Characters and strings *)

Definition code (c : ascii) : N := N_of_ascii c.

(** [\d] on Latin-1: the ten ASCII digits. *)
Definition is_digit (c : ascii) : bool :=
  ((48 <=? code c) && (code c <=? 57))%N.

(** [\s], and the characters [str.strip()] removes, on Latin-1:
    TAB LF VT FF CR, FS GS RS US, SPACE, NEL and NBSP. *)
Definition is_space (c : ascii) : bool :=
  (((9 <=? code c) && (code c <=? 13))
   || ((28 <=? code c) && (code c <=? 32))
   || (code c =? 133) || (code c =? 160))%N.

(** [\w] on Latin-1 as Python's [re] matches it, the engine of the
    releases of [nltk] whose [RegexpTokenizer] compiles its pattern with
    [re]: the alphanumeric code points and the underscore. *)
Definition is_word (c : ascii) : bool :=
  (((48 <=? code c) && (code c <=? 57))
   || ((65 <=? code c) && (code c <=? 90))
   || (code c =? 95)
   || ((97 <=? code c) && (code c <=? 122))
   || (code c =? 170) || (code c =? 178) || (code c =? 179)
   || (code c =? 181) || (code c =? 185) || (code c =? 186)
   || ((188 <=? code c) && (code c <=? 190))
   || ((192 <=? code c) && (code c <=? 214))
   || ((216 <=? code c) && (code c <=? 246))
   || ((248 <=? code c) && (code c <=? 255)))%N.

(** The Latin-1 code points of the Unicode category No: the superscripts
    one, two and three and the fractions a quarter, a half and three
    quarters.  [str.isalnum] holds of them, so [re] takes them for word
    characters; an engine that reads the word characters off the Unicode
    properties, as the [regex] package does, takes them for none.  On
    every other Latin-1 code point the two agree. *)
Definition is_other_number (c : ascii) : bool :=
  ((code c =? 178) || (code c =? 179) || (code c =? 185)
   || ((188 <=? code c) && (code c <=? 190)))%N.

Definition is_empty (s : string) : bool :=
  match s with
  | EmptyString => true
  | String _ _ => false
  end.

Fixpoint all_space (s : string) : bool :=
  match s with
  | EmptyString => true
  | String c r => is_space c && all_space r
  end.

Fixpoint all_digits (s : string) : bool :=
  match s with
  | EmptyString => true
  | String c r => is_digit c && all_digits r
  end.

Fixpoint lstrip (s : string) : string :=
  match s with
  | EmptyString => EmptyString
  | String c r => if is_space c then lstrip r else s
  end.

Fixpoint rstrip (s : string) : string :=
  match s with
  | EmptyString => EmptyString
  | String c r => if all_space s then EmptyString else String c (rstrip r)
  end.

(** [s.strip()] *)
Definition strip (s : string) : string := rstrip (lstrip s).

(** [s.replace(a, b)] for one-character [a]; [b] may be empty. *)
Fixpoint replace (a : ascii) (b : string) (s : string) : string :=
  match s with
  | EmptyString => EmptyString
  | String c r =>
      if Ascii.eqb c a then b ++ replace a b r else String c (replace a b r)
  end.

(** [sep.join(parts)] *)
Fixpoint join (sep : string) (parts : list string) : string :=
  match parts with
  | [] => EmptyString
  | [p] => p
  | p :: ps => p ++ sep ++ join sep ps
  end.

(** ** Floating-point values *)

Definition prec : Z := 53.
Definition emax : Z := 1024.

Definition float : Type := spec_float.

(** The binary64 value nearest to [n / d] (ties to even, overflow to
    infinity): the quotient of the two exact integers, rounded once. *)
Definition float_of_ratio (n : N) (d : positive) : float :=
  match n with
  | N0 => S754_zero false
  | Npos p => SFdiv prec emax (S754_finite false p 0) (S754_finite false d 0)
  end.

(** [10 ** k] *)
Fixpoint pow10 (k : nat) : positive :=
  match k with
  | O => 1%positive
  | S k' => (10 * pow10 k')%positive
  end.

Definition digit_value (c : ascii) : N := (code c - 48)%N.

(** The number a string of decimal digits denotes, continuing from [acc]. *)
Fixpoint digits_value (acc : N) (s : string) : N :=
  match s with
  | EmptyString => acc
  | String c r => digits_value (10 * acc + digit_value c)%N r
  end.

Fixpoint split_at (a : ascii) (s : string) : string * option string :=
  match s with
  | EmptyString => (EmptyString, None)
  | String c r =>
      if Ascii.eqb c a then (EmptyString, Some r)
      else let (h, t) := split_at a r in (String c h, t)
  end.

(** [float(s)] on unsigned decimal numerals: digits, optionally a point
    and more digits, with a digit on at least one side.  The result is the
    nearest binary64 value.  The rest of what [float] accepts (signs,
    exponents, [inf], [nan], underscores, surrounding blanks) is outside
    this embedding and is answered [ValueError] here; no string that
    [number_pattern] captures is of that kind (lemma [py_float_numeral]). *)
Definition py_float (s : string) : result float :=
  let (ip, fp) := split_at "." s in
  let fs := match fp with Some f => f | None => EmptyString end in
  if all_digits ip && all_digits fs && negb (is_empty ip && is_empty fs)
  then Ok (float_of_ratio (digits_value 0 (ip ++ fs))
                          (pow10 (String.length fs)))
  else Raise ValueError.

(** ** Numbers and tokens *)

(** A Python number of the pipeline: a [float] parsed from a fragment, or
    the [int] sentinel of [__filter_tokens]. *)
Inductive number : Type :=
| Int (z : Z)
| Float (f : float).

(** A token of a line is whatever Python value the list holds: [None] (an
    XML element without text), a text fragment, or a number. *)
Inductive pyval : Type :=
| PyNone
| PyStr (s : string)
| PyNum (n : number).

(** [isinstance(token, (int, float))] *)
Definition is_number (v : pyval) : bool :=
  match v with
  | PyNum _ => true
  | PyNone | PyStr _ => false
  end.

Definition line : Type := list pyval.

(** [sum(isinstance(item, (int, float)) for item in line)] *)
Definition num_numbers (l : line) : nat :=
  List.length (filter is_number l).

(** *** Comparison

    Python compares two numbers by the real numbers they stand for, also
    an [int] with a [float]; a NaN is neither smaller nor larger than
    anything.  A finite value stands for [m * 2 ^ e]. *)
Inductive xreal : Type :=
| XNaN
| XNegInf
| XFin (m e : Z)
| XPosInf.

Definition float_value (f : float) : xreal :=
  match f with
  | S754_nan => XNaN
  | S754_infinity s => if s then XNegInf else XPosInf
  | S754_zero _ => XFin 0 0
  | S754_finite s m e => XFin (if s then Zneg m else Zpos m) e
  end.

Definition number_value (n : number) : xreal :=
  match n with
  | Int z => XFin z 0
  | Float f => float_value f
  end.

(** [m * 2 ^ e] with [2 ^ d] as the unit, for [d <= e]. *)
Definition scaled (m e d : Z) : Z := (m * 2 ^ (e - d))%Z.

Definition xreal_ltb (a b : xreal) : bool :=
  match a, b with
  | XNaN, _ | _, XNaN => false
  | XNegInf, XNegInf => false
  | XNegInf, _ => true
  | _, XNegInf => false
  | XPosInf, _ => false
  | _, XPosInf => true
  | XFin m1 e1, XFin m2 e2 =>
      (scaled m1 e1 (Z.min e1 e2) <? scaled m2 e2 (Z.min e1 e2))%Z
  end.

(** [a < b] *)
Definition lt (a b : number) : bool :=
  xreal_ltb (number_value a) (number_value b).

(** [a == b] on numbers *)
Definition number_eqb (a b : number) : bool :=
  match number_value a, number_value b with
  | XNaN, _ | _, XNaN => false
  | _, _ => negb (lt a b) && negb (lt b a)
  end.

(** [a == b] on tokens. *)
Definition pyval_eqb (a b : pyval) : bool :=
  match a, b with
  | PyNone, PyNone => true
  | PyStr s, PyStr t => String.eqb s t
  | PyNum m, PyNum n => number_eqb m n
  | _, _ => false
  end.

(** [token in tokens] *)
Definition contains (tokens : line) (token : pyval) : bool :=
  existsb (pyval_eqb token) tokens.

(** ** The compiled patterns *)

(** Up to [n] leading digits, greedily: [\d{0,n}]. *)
Fixpoint take_digits (n : nat) (s : string) : string * string :=
  match n, s with
  | S n', String c r =>
      if is_digit c
      then let (d, rest) := take_digits n' r in (String c d, rest)
      else (EmptyString, s)
  | _, _ => (EmptyString, s)
  end.

(** [(?:\.\d{3})*]: as many groups of a point and three digits as follow. *)
Fixpoint take_groups (s : string) : string * string :=
  match s with
  | String p (String a (String b (String c r))) =>
      if Ascii.eqb p "." && is_digit a && is_digit b && is_digit c
      then let (g, rest) := take_groups r in
           (String p (String a (String b (String c g))), rest)
      else (EmptyString, s)
  | _ => (EmptyString, s)
  end.

(** [(?:,\d{2})?] *)
Definition take_decimals (s : string) : string * string :=
  match s with
  | String p (String a (String b r)) =>
      if Ascii.eqb p "," && is_digit a && is_digit b
      then (String p (String a (String b EmptyString)), r)
      else (EmptyString, s)
  | _ => (EmptyString, s)
  end.

(** [\s?] *)
Definition take_space (s : string) : string * string :=
  match s with
  | String c r => if is_space c then (String c EmptyString, r) else (EmptyString, s)
  | EmptyString => (EmptyString, s)
  end.

(** [[+-]?] *)
Definition take_sign (s : string) : string * string :=
  match s with
  | String c r =>
      if Ascii.eqb c "+" || Ascii.eqb c "-"
      then (String c EmptyString, r) else (EmptyString, s)
  | EmptyString => (EmptyString, s)
  end.

Definition newline : ascii := ascii_of_N 10.

(** [$]: the end of the string, or just before a newline that ends it. *)
Definition at_end (s : string) : bool :=
  match s with
  | EmptyString => true
  | String c EmptyString => Ascii.eqb c newline
  | _ => false
  end.

(** [number_pattern.match(s)], answering [match.groups()]:
    [^(\d{1,3}(?:\.\d{3})*(?:,\d{2})?)\s?([+-]?)$].
    Each piece of the pattern starts with a character no later piece can
    take (a digit, a point, a comma, a blank, a sign), so the greedy first
    choice is the only one that can reach [$]. *)
Definition number_pattern (s : string) : option (string * string) :=
  let (d, s1) := take_digits 3 s in
  if is_empty d then None
  else
    let (g, s2) := take_groups s1 in
    let (f, s3) := take_decimals s2 in
    let (_, s4) := take_space s3 in
    let (sign, s5) := take_sign s4 in
    if at_end s5 then Some ((d ++ g ++ f)%string, sign) else None.

(** [useless_tokens_pattern.match(s)] is not [None]: [^\s*\+\s*$]. *)
Definition useless_tokens_pattern (s : string) : bool :=
  match lstrip s with
  | String c r => Ascii.eqb c "+" && all_space r
  | EmptyString => false
  end.

(** [date_pattern.match(s)] is not [None]: [\d{2}\.\d{2}\s*$], anchored at
    the start by [match]. *)
Definition date_pattern (s : string) : bool :=
  match s with
  | String a (String b (String p (String c (String d r)))) =>
      is_digit a && is_digit b && Ascii.eqb p "." && is_digit c && is_digit d
      && all_space r
  | _ => false
  end.

(** The runs of [\w] characters of [s], [cur] being the run under way. *)
Fixpoint word_runs (cur : string) (s : string) : list string :=
  match s with
  | EmptyString => if is_empty cur then [] else [cur]
  | String c r =>
      if is_word c then word_runs (cur ++ String c EmptyString)%string r
      else if is_empty cur then word_runs EmptyString r
      else cur :: word_runs EmptyString r
  end.

(** [tokenizer.tokenize(s)] for [RegexpTokenizer(r'\w+')]: every maximal
    run of word characters, left to right ([re.findall]). *)
Definition tokenize (s : string) : list string := word_runs EmptyString s.

(** ** The four cleaning passes *)

(** The body of the loop of [__parse_numbers]. *)
Definition parse_number (token : pyval) : result pyval :=
  match token with
  | PyStr s =>
      match number_pattern (strip s) with
      | Some (numeric_part, sign) =>
          number <- py_float (replace "," "." (replace "." EmptyString numeric_part)) ;;
          Ok (PyNum (Float (if String.eqb sign "-" then SFopp number else number)))
      | None => Ok token
      end
  | _ => Raise AttributeError   (* token.strip() *)
  end.

Definition parse_numbers (l : line) : result line := mapM parse_number l.

(** The body of the loop of [__clean_date]. *)
Definition clean_date_token (token : pyval) : result pyval :=
  match token with
  | PyNum _ => Ok token
  | PyStr s => Ok (PyStr (strip s))
  | PyNone => Raise AttributeError   (* token.strip() *)
  end.

Definition clean_date (l : line) : result line := mapM clean_date_token l.

Fixpoint remove_useless_tokens (l : line) : result line :=
  match l with
  | [] => Ok []
  | token :: l' =>
      match token with
      | PyNum _ =>
          rest <- remove_useless_tokens l' ;; Ok (token :: rest)
      | PyStr s =>
          rest <- remove_useless_tokens l' ;;
          Ok (if useless_tokens_pattern s then rest else token :: rest)
      | PyNone => Raise TypeError   (* pattern.match(None) *)
      end
  end.

(** The body of the loop of [__clean_text]. *)
Definition clean_text_token (token : pyval) : result pyval :=
  match token with
  | PyNum _ => Ok token
  | PyStr s =>
      if date_pattern s then Ok token
      else Ok (PyStr (join " " (tokenize s)))
  | PyNone => Raise TypeError   (* pattern.match(None) *)
  end.

Definition clean_text (l : line) : result line := mapM clean_text_token l.

(** The body of the loop of [__clean_lines]: the four passes in order. *)
Definition clean_line (l : line) : result line :=
  l1 <- parse_numbers l ;;
  l2 <- clean_date l1 ;;
  l3 <- remove_useless_tokens l2 ;;
  clean_text l3.

(** ** Dictionaries

    A [dict] keeps its keys in insertion order; assigning to a key that is
    present replaces the value where it stands. *)

Definition dict (V : Type) : Type := list (string * V).

Fixpoint dict_get {V : Type} (key : string) (d : dict V) : option V :=
  match d with
  | [] => None
  | (k, v) :: d' => if String.eqb k key then Some v else dict_get key d'
  end.

(** [d[key] = v] *)
Fixpoint dict_set {V : Type} (key : string) (v : V) (d : dict V) : dict V :=
  match d with
  | [] => [(key, v)]
  | (k, w) :: d' =>
      if String.eqb k key then (k, v) :: d' else (k, w) :: dict_set key v d'
  end.

Definition keys {V : Type} (d : dict V) : list string := map fst d.
Definition values {V : Type} (d : dict V) : list V := map snd d.

(** A well-formed dictionary holds each key once. *)
Definition well_formed {V : Type} (d : dict V) : Prop := NoDup (keys d).

(** ** Cleaning all lines *)

(** [__clean_lines]: every key of [lines], in order, has its line replaced
    by the cleaned one. *)
Definition clean_lines (lines : dict line) : result (dict line) :=
  foldM
    (fun d key =>
       match dict_get key d with
       | Some l => l' <- clean_line l ;; Ok (dict_set key l' d)
       | None => Raise KeyError
       end)
    lines (keys lines).

(** ** The line filter *)

Definition filter_lines (lines : dict line) : dict line :=
  fold_left
    (fun clean_lines '(key, l) =>
       if (2 <=? num_numbers l)%nat then dict_set key l clean_lines
       else clean_lines)
    lines [].

(** ** The token filter *)

(** [10**20] *)
Definition sentinel : number := Int (10 ^ 20).

(** The inner loop of [__filter_tokens], from the current
    [smallest_number] and [clean_line]. *)
Fixpoint filter_tokens_loop (smallest_number : number) (clean_line : line)
    (l : line) : number * line :=
  match l with
  | [] => (smallest_number, clean_line)
  | PyNum token :: l' =>
      filter_tokens_loop
        (if lt token smallest_number then token else smallest_number)
        clean_line l'
  | token :: l' =>
      filter_tokens_loop smallest_number
        (if contains clean_line token then clean_line else clean_line ++ [token])
        l'
  end.

(** The body of the outer loop of [__filter_tokens]. *)
Definition filter_tokens_line (l : line) : line :=
  let (smallest_number, clean_line) := filter_tokens_loop sentinel [] l in
  clean_line ++ [PyNum smallest_number].

Definition filter_tokens (lines : dict line) : dict line :=
  fold_left
    (fun clean_lines '(key, l) => dict_set key (filter_tokens_line l) clean_lines)
    lines [].

(** ** The record builder *)

(** The [json] dictionary of one line: its three possible keys. *)
Record record : Type := mk_record {
  amount : option number;
  date : option string;
  text : option string
}.

Definition empty_record : record := mk_record None None None.

(** The inner loop of [__transform_to_json]. *)
Fixpoint transform_loop (json : record) (l : line) : result record :=
  match l with
  | [] => Ok json
  | PyNum token :: l' =>
      transform_loop (mk_record (Some token) (date json) (text json)) l'
  | PyStr token :: l' =>
      if date_pattern token
      then transform_loop (mk_record (amount json) (Some token) (text json)) l'
      else transform_loop (mk_record (amount json) (date json) (Some token)) l'
  | PyNone :: _ => Raise TypeError   (* date_pattern.match(None) *)
  end.

Definition transform_line (l : line) : result record :=
  transform_loop empty_record l.

Definition transform_to_json (lines : dict line) : result (list record) :=
  mapM transform_line (values lines).

(** ** The pipeline after line extraction

    [process_pdf] from the dictionary [__extract_lines] returned. *)
Definition process_lines (lines : dict line) : result (list record) :=
  cleaned <- clean_lines lines ;;
  transform_to_json (filter_tokens (filter_lines cleaned)).

(** ** The XML tree and the line grouper *)

(** An element of the tree [ET.parse] returns: its tag, its attributes,
    its text ([None] when it has none) and its children. *)
Inductive element : Type :=
| Element (tag : string) (attrib : dict string) (text : option string)
          (children : list element).

Definition tag_of (e : element) : string :=
  match e with Element t _ _ _ => t end.

Definition text_of (e : element) : option string :=
  match e with Element _ _ t _ => t end.

Definition children_of (e : element) : list element :=
  match e with Element _ _ _ cs => cs end.

(** [e.get(name)] *)
Definition get (name : string) (e : element) : option string :=
  match e with Element _ a _ _ => dict_get name a end.

(** [e.iter()]: the element and everything below it, in document order. *)
Fixpoint iter (e : element) : list element :=
  match e with
  | Element _ _ _ cs => e :: flat_map iter cs
  end.

(** [e.findall(".//" + tag)]: the elements below [e] with that tag, in
    document order. *)
Definition findall (tag : string) (e : element) : list element :=
  filter (fun d => String.eqb (tag_of d) tag) (flat_map iter (children_of e)).

(** [e.find(".//" + tag)] *)
Definition find (tag : string) (e : element) : option element :=
  hd_error (findall tag e).

(** The Python value of [e.text]. *)
Definition py_text (t : option string) : pyval :=
  match t with
  | Some s => PyStr s
  | None => PyNone
  end.

(** [line.text or line.find(".//LTTextBoxHorizontal").text] *)
Definition text_element (l : element) : result pyval :=
  match text_of l with
  | Some (String c s) => Ok (PyStr (String c s))
  | _ =>
      match find "LTTextBoxHorizontal" l with
      | Some box => Ok (py_text (text_of box))
      | None => Raise AttributeError   (* None.text *)
      end
  end.

(** The fragment of a line as the specification describes it: its direct
    text if present, else the text of its first nested text box. *)
Inductive fragment_of (l : element) : pyval -> Prop :=
| direct_text (s : string) :
    text_of l = Some s -> s <> EmptyString -> fragment_of l (PyStr s)
| nested_text (box : element) :
    text_of l = None \/ text_of l = Some EmptyString ->
    find "LTTextBoxHorizontal" l = Some box ->
    fragment_of l (py_text (text_of box)).

(** The line elements [__extract_lines] visits, each with its page, in the
    order of the two loops. *)
Definition visits (root : element) : list (element * element) :=
  flat_map
    (fun page => map (pair page) (findall "LTTextLineHorizontal" page))
    (findall "LTPage" root).

(** The fragments met under the key [k], in the order they were met. *)
Definition fragments_under (k : string) (es : list (string * pyval)) : line :=
  map snd (filter (fun e => String.eqb (fst e) k) es).

(** [lines[index].append(x)] when the key is there, [lines[index] = [x]]
    when it is not. *)
Definition add_fragment (index : string) (x : pyval) (lines : dict line)
    : dict line :=
  match dict_get index lines with
  | Some fragments => dict_set index (fragments ++ [x]) lines
  | None => dict_set index [x] lines
  end.

Section LineGrouper.

(** The conversions of the attribute values are Python's own: [int] and
    [float] of an attribute, and [str] of the two numbers.  The grouping
    below does not depend on what they answer. *)
Variable py_int : option string -> result Z.
Variable py_float_attr : option string -> result float.
Variable str_int : Z -> string.
Variable str_float : float -> string.

(** ["P" + str(page_num) + "L" + str(y0)] *)
Definition line_index (page_num : Z) (y0 : float) : string :=
  ("P" ++ str_int page_num ++ "L" ++ str_float y0)%string.

(** The body of the inner loop of [__extract_lines]. *)
Definition extract_line (page_num : Z) (lines : dict line) (l : element)
    : result (dict line) :=
  y0 <- py_float_attr (get "y0" l) ;;
  x <- text_element l ;;
  Ok (add_fragment (line_index page_num y0) x lines).

(** The body of the outer loop. *)
Definition extract_page (lines : dict line) (page : element)
    : result (dict line) :=
  page_num <- py_int (get "pageid" page) ;;
  foldM (extract_line page_num) lines (findall "LTTextLineHorizontal" page).

(** [__extract_lines], from the root of the parsed tree. *)
Definition extract_lines (root : element) : result (dict line) :=
  foldM extract_page [] (findall "LTPage" root).

(** The key and the fragment of a visited line, as the specification
    describes them. *)
Definition line_entry (visit : element * element) (e : string * pyval)
    : Prop :=
  exists page_num y0,
    py_int (get "pageid" (fst visit)) = Ok page_num
    /\ py_float_attr (get "y0" (snd visit)) = Ok y0
    /\ fst e = line_index page_num y0
    /\ fragment_of (snd visit) (snd e).

(** Every page has a page number [int] accepts. *)
Definition pages_numbered (root : element) : Prop :=
  Forall (fun page => exists page_num,
            py_int (get "pageid" page) = Ok page_num)
         (findall "LTPage" root).

End LineGrouper.

(** ** Notions the statements below are written in *)

(** The numbers of a line, in order. *)
Fixpoint numbers (l : line) : list number :=
  match l with
  | [] => []
  | PyNum n :: l' => n :: numbers l'
  | _ :: l' => numbers l'
  end.

(** The text fragments of a line, in order. *)
Fixpoint strings (l : line) : list string :=
  match l with
  | [] => []
  | PyStr s :: l' => s :: strings l'
  | _ :: l' => strings l'
  end.

(** [n] is the minimum of [ns]: it equals one of them and none of them is
    smaller. *)
Definition minimum_of (ns : list number) (n : number) : Prop :=
  (exists m, In m ns /\ number_eqb n m = true)
  /\ (forall m, In m ns -> lt m n = false).

(** A line passes the line filter. *)
Definition survives (l : line) : bool := (2 <=? num_numbers l)%nat.

(** The token filter as the specification words it: a line that survives
    the line filter is left with exactly one number, its last token, the
    minimum of the numbers it had. *)
Definition token_filter_claim (l : line) : Prop :=
  survives l = true ->
  exists texts n,
    filter_tokens_line l = texts ++ [PyNum n]
    /\ num_numbers (filter_tokens_line l) = 1
    /\ minimum_of (numbers l) n.

(** An entry of the dictionary passes the line filter. *)
Definition keeps (kl : string * line) : bool := survives (snd kl).

(** The value a key of [json] holds after the assignments [json[key] = x]
    for [x] in [xs], starting from [init]. *)
Definition latest {A : Type} (init : option A) (xs : list A) : option A :=
  fold_left (fun _ x => Some x) xs init.

(** A line [__clean_lines] has returned holds no [None]. *)
Definition no_none (l : line) : Prop := ~ In PyNone l.

(** Cleaned lines to try the filters on: a payment, a line of two numbers
    and nothing else, and a heading. *)
Definition cleaned_example : dict line :=
  [("P1L468.447",
    [PyStr "Gjensidige Forsikring"; PyStr "03.10";
     PyNum (Float (S754_finite true 8697928624080159 (-44)));
     PyNum (Float (S754_finite false 7238480869835407 (-41)))]);
   ("P1L440.1",
    [PyNum (Float (S754_finite false 4503599627370496 (-52)));
     PyNum (Float (S754_finite false 4503599627370496 (-51)))]);
   ("P1L503.007", [PyStr "Indsat"; PyStr "dato"])].


(** *** Numerals as the specification describes them

    One to three digits, then groups of three digits, each after a point,
    then optionally two decimals after a comma. *)
Record numeral : Type := mk_numeral {
  leading : string;
  thousands : list string;
  decimals : option string
}.

Definition digits_of_length (n : nat) (s : string) : Prop :=
  all_digits s = true /\ String.length s = n.

Definition numeral_ok (x : numeral) : Prop :=
  all_digits (leading x) = true
  /\ (1 <= String.length (leading x) <= 3)%nat
  /\ Forall (digits_of_length 3) (thousands x)
  /\ match decimals x with
     | Some c => digits_of_length 2 c
     | None => True
     end.

Fixpoint render_groups (gs : list string) : string :=
  match gs with
  | [] => EmptyString
  | g :: gs' => String "." (g ++ render_groups gs')
  end.

Definition render_decimals (c : option string) : string :=
  match c with
  | Some c => String "," c
  | None => EmptyString
  end.

(** The numeral as it is written. *)
Definition render (x : numeral) : string :=
  (leading x ++ render_groups (thousands x) ++ render_decimals (decimals x))%string.

(** The whole part: every group counts thousands of what precedes it. *)
Definition whole_part (x : numeral) : N :=
  fold_left (fun acc g => (acc * 1000 + digits_value 0 g)%N)
            (thousands x) (digits_value 0 (leading x)).

(** The magnitude written, as a fraction: the whole part, plus the two
    decimals as hundredths. *)
Definition magnitude (x : numeral) : N * positive :=
  match decimals x with
  | Some c => ((whole_part x * 100 + digits_value 0 c)%N, 100%positive)
  | None => (whole_part x, 1%positive)
  end.

(** The binary64 value nearest to the magnitude written. *)
Definition written_float (x : numeral) : float :=
  float_of_ratio (fst (magnitude x)) (snd (magnitude x)).

(** The first character of [s], if there is one, satisfies [p]. *)
Definition first_is (p : ascii -> bool) (s : string) : bool :=
  match s with
  | EmptyString => true
  | String c _ => p c
  end.

(** Nothing, or one blank character. *)
Definition is_blank (s : string) : Prop :=
  s = EmptyString \/ exists c, is_space c = true /\ s = String c EmptyString.

(** A sign as the pattern captures it. *)
Definition is_sign (s : string) : Prop :=
  s = EmptyString \/ s = "+"%string \/ s = "-"%string.

(** [isinstance(token, str)] *)
Definition is_str (t : pyval) : bool :=
  match t with
  | PyStr _ => true
  | _ => false
  end.


(** A string of the date shape [DD.MM], blanks after it allowed. *)
Definition date_shaped (a b c d : ascii) (blanks : string) : string :=
  String a (String b (String "." (String c (String d blanks)))).

(** A line whose two numbers are 2e20 and 3e20. *)
Definition big_line : line :=
  [PyNum (Float (S754_finite false 6103515625000000 15));
   PyNum (Float (S754_finite false 4577636718750000 16))].

(** The dictionary a list of keyed fragments builds up. *)
Definition grouped (es : list (string * pyval)) (d : dict line) : dict line :=
  fold_left (fun d e => add_fragment (fst e) (snd e) d) es d.

(** *** A tree to try the line grouper on

    The conversions are stand-ins for Python's: [int] and [float] on
    decimal numerals, [str] of an integer in decimal, and for [str] of a
    float its mantissa and exponent, which tells floats apart as the keys
    need. *)

Definition example_int (a : option string) : result Z :=
  match a with
  | None => Raise TypeError
  | Some s =>
      if all_digits s && negb (is_empty s)
      then Ok (Z.of_N (digits_value 0 s)) else Raise ValueError
  end.

Definition example_float (a : option string) : result float :=
  match a with
  | None => Raise TypeError
  | Some s => py_float s
  end.

Definition example_str_int (z : Z) : string :=
  NilZero.string_of_int (Z.to_int z).

Definition example_str_float (f : float) : string :=
  match f with
  | S754_finite s m e =>
      ((if s then "-" else "") ++ example_str_int (Zpos m)
       ++ "p" ++ example_str_int e)%string
  | S754_zero s => if s then "-0.0" else "0.0"
  | S754_infinity s => if s then "-inf" else "inf"
  | S754_nan => "nan"
  end.

(** One page of three lines; the second has its text in a nested box and
    stands at the height of the first. *)
Definition example_tree : element :=
  Element "pdfxml" [] None
    [Element "LTPage" [("pageid", "1")] None
       [Element "LTTextLineHorizontal" [("y0", "468.447")]
                (Some "494,42 - ") [];
        Element "LTTextLineHorizontal" [("y0", "468.447")] None
                [Element "LTTextBoxHorizontal" [] (Some "03.10 ") []];
        Element "LTTextLineHorizontal" [("y0", "440.1")]
                (Some "Netto ") []]].

Definition example_entries : list (string * pyval) :=
  [("P1L8241006775948542p-44", PyStr "494,42 - ");
   ("P1L8241006775948542p-44", PyStr "03.10 ");
   ("P1L7742321078147482p-44", PyStr "Netto ")].

(** A text token that is a plus sign once stripped. *)
Definition is_plus (t : pyval) : bool :=
  match t with
  | PyStr s => String.eqb (strip s) "+"
  | _ => false
  end.

(** Every character of [s] satisfies [p]. *)
Fixpoint all_chars (p : ascii -> bool) (s : string) : bool :=
  match s with
  | EmptyString => true
  | String c r => p c && all_chars p r
  end.

(** A word character or a space. *)
Definition word_or_space (c : ascii) : bool := is_word c || Ascii.eqb c " ".

(** A text token as the text pass leaves it: a date, or words with one
    space between them. *)
Definition normal_text (s : string) : Prop :=
  date_pattern s = true
  \/ (all_chars word_or_space s = true /\ join " " (tokenize s) = s).

(** The tokens of a line that are not numbers, in order. *)
Definition texts (l : line) : line := filter (fun t => negb (is_number t)) l.

(** The first occurrence of every token, in order. *)
Fixpoint first_occurrences (l : line) : line :=
  match l with
  | [] => []
  | t :: l' => t :: filter (fun u => negb (pyval_eqb u t)) (first_occurrences l')
  end.

(** The number [__filter_tokens] ends with, from the numbers of a line. *)
Definition smallest_of (ns : list number) : number :=
  fold_left (fun s n => if lt n s then n else s) ns sentinel.

(** A run of word characters that is not empty. *)
Definition is_run (w : string) : Prop :=
  all_chars is_word w = true /\ is_empty w = false.

(** A date as the records show it: two digits, a point, two digits. *)
Definition is_date (s : string) : Prop :=
  exists a b c d,
    is_digit a = true /\ is_digit b = true /\ is_digit c = true
    /\ is_digit d = true /\ s = date_shaped a b c d EmptyString.

(** Words with one space between them, and nothing else. *)
Definition is_words (s : string) : Prop :=
  all_chars word_or_space s = true /\ join " " (tokenize s) = s.

(** A token of a cleaned line: a number, a date or words. *)
Definition tidy (t : pyval) : Prop :=
  match t with
  | PyNum _ => True
  | PyStr s => is_date s \/ is_words s
  | PyNone => False
  end.

(** A text token without blanks at its ends, or a number. *)
Definition stripped (t : pyval) : Prop :=
  match t with
  | PyNum _ => True
  | PyStr s => strip s = s
  | PyNone => False
  end.

(** A record as the pipeline returns it: an amount that is not above the
    sentinel, a date that is a date, a text that is words. *)
Definition normal_record (r : record) : Prop :=
  (exists n, amount r = Some n /\ lt sentinel n = false)
  /\ (forall s, date r = Some s -> is_date s)
  /\ (forall s, text r = Some s -> is_words s).

(** ** The whole of [process_pdf]

    [process_pdf] from the root of the tree that [__load_pdf_contents]
    wrote and [ET.parse] read back. *)

Section Document.

Variable py_int : option string -> result Z.
Variable py_float_attr : option string -> result float.
Variable str_int : Z -> string.
Variable str_float : float -> string.

Definition process_pdf (root : element) : result (list record) :=
  lines <- extract_lines py_int py_float_attr str_int str_float root ;;
  process_lines lines.

End Document.

(** The number of fragments a dictionary holds. *)
Definition total (d : dict line) : nat :=
  List.length (List.concat (values d)).

(** A line of fragments: not empty, and no number in it. *)
Definition fragments (l : line) : Prop := l <> [] /\ numbers l = [].

(** What the loops of [__extract_lines] keep true of [lines], [n] being
    the number of lines visited so far. *)
Definition grouper_invariant (n : nat) (d : dict line) : Prop :=
  well_formed d /\ Forall fragments (values d) /\ total d = n.

(** The characters of [s] that satisfy [p], in order. *)
Fixpoint keep (p : ascii -> bool) (s : string) : string :=
  match s with
  | EmptyString => EmptyString
  | String c r => if p c then String c (keep p r) else keep p r
  end.

(** A tree whose second line has a text box without text. *)
Definition example_tree_without_text : element :=
  Element "pdfxml" [] None
    [Element "LTPage" [("pageid", "1")] None
       [Element "LTTextLineHorizontal" [("y0", "468.447")]
                (Some "494,42 - ") [];
        Element "LTTextLineHorizontal" [("y0", "468.447")] None
                [Element "LTTextBoxHorizontal" [] None []]]].

(** A text on whose characters [re] and [regex] agree. *)
Definition no_other_number (s : string) : bool :=
  all_chars (fun c => negb (is_other_number c)) s.

(** A fragment the number pass turns into a number. *)
Definition is_numeral (t : pyval) : bool :=
  match t with
  | PyStr s =>
      match number_pattern (strip s) with
      | Some _ => true
      | None => false
      end
  | _ => false
  end.

(** A line of fragments that the line filter will keep: two of its
    fragments, or more, are numerals. *)
Definition is_payment (l : line) : bool :=
  (2 <=? List.length (filter is_numeral l))%nat.

(** A page with a heading and the payment of the docstring of
    [__extract_lines]. *)
Definition example_statement : element :=
  Element "pdfxml" [] None
    [Element "LTPage" [("pageid", "1")] None
       [Element "LTTextLineHorizontal" [("y0", "492.207")]
                (Some "Indsat ") [];
        Element "LTTextLineHorizontal" [("y0", "492.207")]
                (Some "dato ") [];
        Element "LTTextLineHorizontal" [("y0", "468.447")]
                (Some "494,42 - ") [];
        Element "LTTextLineHorizontal" [("y0", "468.447")]
                (Some "3.291,68 ") [];
        Element "LTTextLineHorizontal" [("y0", "468.447")]
                (Some "+ ") [];
        Element "LTTextLineHorizontal" [("y0", "468.447")] None
                [Element "LTTextBoxHorizontal" []
                         (Some "Gjensidige Forsikring, D ") []];
        Element "LTTextLineHorizontal" [("y0", "468.447")]
                (Some "03.10 ") [];
        Element "LTTextLineHorizontal" [("y0", "468.447")]
                (Some "03.10 ") []]].

(** * Properties *)

(** *** The order on numbers *)

Lemma scaled_shift (m e d d' : Z) :
  (d' <= d)%Z -> (d <= e)%Z -> scaled m e d' = (scaled m e d * 2 ^ (d - d'))%Z.
Proof.
  intros Hd He. unfold scaled.
  replace (e - d')%Z with ((e - d) + (d - d'))%Z by lia.
  rewrite Z.pow_add_r by lia. ring.
Qed.

Lemma scaled_ltb_shift (m1 e1 m2 e2 d d' : Z) :
  (d' <= d)%Z -> (d <= e1)%Z -> (d <= e2)%Z ->
  (scaled m1 e1 d' <? scaled m2 e2 d')%Z = (scaled m1 e1 d <? scaled m2 e2 d)%Z.
Proof.
  intros Hd H1 H2.
  rewrite (scaled_shift m1 e1 d d'), (scaled_shift m2 e2 d d') by lia.
  assert (Hp : (0 < 2 ^ (d - d'))%Z) by (apply Z.pow_pos_nonneg; lia).
  destruct (Z.ltb_spec (scaled m1 e1 d) (scaled m2 e2 d)) as [Hlt | Hge].
  - apply Z.ltb_lt. apply Z.mul_lt_mono_pos_r; assumption.
  - apply Z.ltb_ge. apply Z.mul_le_mono_nonneg_r; lia.
Qed.

Lemma xreal_ltb_irrefl (a : xreal) : xreal_ltb a a = false.
Proof.
  destruct a; simpl; try reflexivity. apply Z.ltb_irrefl.
Qed.

Lemma xreal_ltb_trans (a b c : xreal) :
  xreal_ltb a b = true -> xreal_ltb b c = true -> xreal_ltb a c = true.
Proof.
  destruct a as [| | m1 e1 |], b as [| | m2 e2 |], c as [| | m3 e3 |];
    simpl; try congruence.
  intros H12 H23.
  set (d := Z.min e1 (Z.min e2 e3)).
  rewrite <- (scaled_ltb_shift m1 e1 m2 e2 (Z.min e1 e2) d) in H12 by lia.
  rewrite <- (scaled_ltb_shift m2 e2 m3 e3 (Z.min e2 e3) d) in H23 by lia.
  rewrite <- (scaled_ltb_shift m1 e1 m3 e3 (Z.min e1 e3) d) by lia.
  apply Z.ltb_lt in H12, H23. apply Z.ltb_lt. lia.
Qed.

Lemma lt_irrefl (n : number) : lt n n = false.
Proof. apply xreal_ltb_irrefl. Qed.

Lemma lt_trans (a b c : number) :
  lt a b = true -> lt b c = true -> lt a c = true.
Proof. apply xreal_ltb_trans. Qed.

(** A number that is smaller than another one is not a NaN, and equals
    itself. *)
Lemma lt_number_eqb_refl (a b : number) : lt a b = true -> number_eqb a a = true.
Proof.
  unfold number_eqb, lt. intros H. rewrite xreal_ltb_irrefl.
  destruct (number_value a); simpl in *; congruence.
Qed.

(** *** The order on floats is the order of IEEE 754 *)

Lemma digits2_pos_bounds (m : positive) :
  (2 ^ (Zpos (digits2_pos m) - 1) <= Zpos m < 2 ^ Zpos (digits2_pos m))%Z.
Proof.
  induction m as [m IH | m IH |]; simpl digits2_pos.
  - rewrite Pos2Z.inj_succ.
    replace (Z.succ (Zpos (digits2_pos m)) - 1)%Z
      with (Z.succ (Zpos (digits2_pos m) - 1))%Z by lia.
    rewrite !Z.pow_succ_r by lia. lia.
  - rewrite Pos2Z.inj_succ.
    replace (Z.succ (Zpos (digits2_pos m)) - 1)%Z
      with (Z.succ (Zpos (digits2_pos m) - 1))%Z by lia.
    rewrite !Z.pow_succ_r by lia. lia.
  - simpl. lia.
Qed.

(** A canonical mantissa has at most 53 digits, and exactly 53 above the
    smallest exponent. *)
Lemma canonical_bounds (m : positive) (e : Z) :
  valid_binary prec emax (S754_finite false m e) = true ->
  (-1074 <= e)%Z /\ (Zpos m < 2 ^ 53)%Z
  /\ ((-1074 < e)%Z -> (2 ^ 52 <= Zpos m)%Z).
Proof.
  unfold valid_binary, bounded, canonical_mantissa, fexp, SpecFloat.emin, prec, emax.
  intros H. apply andb_true_iff in H. destruct H as [H _].
  apply Z.eqb_eq in H.
  pose proof (digits2_pos_bounds m) as [Hlo Hhi].
  set (d := Zpos (digits2_pos m)) in *.
  assert (Hd : (d <= 53)%Z) by lia.
  split; [lia |]. split.
  - apply (Z.lt_le_trans _ _ _ Hhi). apply Z.pow_le_mono_r; lia.
  - intros He. assert (d = 53)%Z by lia. subst d.
    replace 52%Z with (Zpos (digits2_pos m) - 1)%Z by lia. exact Hlo.
Qed.

Lemma finite_ltb (m1 m2 : positive) (e1 e2 : Z) :
  valid_binary prec emax (S754_finite false m1 e1) = true ->
  valid_binary prec emax (S754_finite false m2 e2) = true ->
  (scaled (Zpos m1) e1 (Z.min e1 e2) <? scaled (Zpos m2) e2 (Z.min e1 e2))%Z
  = match (e1 ?= e2)%Z with
    | Lt => true
    | Gt => false
    | Eq => match Pos.compare_cont Eq m1 m2 with Lt => true | _ => false end
    end.
Proof.
  intros H1 H2.
  destruct (canonical_bounds m1 e1 H1) as (Hmin1 & Hhi1 & Hlo1).
  destruct (canonical_bounds m2 e2 H2) as (Hmin2 & Hhi2 & Hlo2).
  unfold scaled. destruct (Z.compare_spec e1 e2) as [-> | Hlt | Hgt].
  - rewrite Z.min_id, Z.sub_diag. simpl Z.pow. rewrite !Z.mul_1_r.
    reflexivity.
  - rewrite Z.min_l by lia. rewrite Z.sub_diag. simpl (2 ^ 0)%Z.
    rewrite Z.mul_1_r. apply Z.ltb_lt.
    assert (Hp : (2 ^ 1 <= 2 ^ (e2 - e1))%Z) by (apply Z.pow_le_mono_r; lia).
    specialize (Hlo2 ltac:(lia)). change (2 ^ 1)%Z with 2%Z in Hp.
    change (2 ^ 53)%Z with (2 ^ 52 * 2)%Z in Hhi1. nia.
  - rewrite Z.min_r by lia. rewrite Z.sub_diag. simpl (2 ^ 0)%Z.
    rewrite Z.mul_1_r. apply Z.ltb_ge.
    assert (Hp : (2 ^ 1 <= 2 ^ (e1 - e2))%Z) by (apply Z.pow_le_mono_r; lia).
    specialize (Hlo1 ltac:(lia)). change (2 ^ 1)%Z with 2%Z in Hp.
    change (2 ^ 53)%Z with (2 ^ 52 * 2)%Z in Hhi2. nia.
Qed.

(** X15. On binary64 values, [lt], the comparison the token filter makes,
    is the comparison of the standard library's specification of IEEE
    754. *)
Lemma lt_SFltb (a b : float) :
  valid_binary prec emax a = true -> valid_binary prec emax b = true ->
  lt (Float a) (Float b) = SFltb a b.
Proof.
  intros Ha Hb. unfold lt, SFltb, SFcompare. cbn [number_value].
  destruct a as [sa | sa | | sa m1 e1], b as [sb | sb | | sb m2 e2];
    cbn [float_value xreal_ltb]; try reflexivity;
    try (destruct sa; reflexivity); try (destruct sb; reflexivity);
    try (destruct sa, sb; reflexivity).
  - (* zero, finite *)
    unfold scaled. rewrite Z.mul_0_l.
    pose proof (Z.pow_pos_nonneg 2 (e2 - Z.min 0 e2) ltac:(lia) ltac:(lia)).
    destruct sb; [apply Z.ltb_ge | apply Z.ltb_lt]; nia.
  - (* finite, zero *)
    unfold scaled. rewrite Z.mul_0_l.
    pose proof (Z.pow_pos_nonneg 2 (e1 - Z.min e1 0) ltac:(lia) ltac:(lia)).
    destruct sa; [apply Z.ltb_lt | apply Z.ltb_ge]; nia.
  - (* finite, finite *)
    assert (Ha' : valid_binary prec emax (S754_finite false m1 e1) = true)
      by exact Ha.
    assert (Hb' : valid_binary prec emax (S754_finite false m2 e2) = true)
      by exact Hb.
    pose proof (Z.pow_pos_nonneg 2 (e1 - Z.min e1 e2) ltac:(lia) ltac:(lia)) as P1.
    pose proof (Z.pow_pos_nonneg 2 (e2 - Z.min e1 e2) ltac:(lia) ltac:(lia)) as P2.
    destruct sa, sb.
    + (* both negative *)
      pose proof (finite_ltb m2 m1 e2 e1 Hb' Ha') as H.
      rewrite Z.min_comm in H.
      assert (Hneg :
        (scaled (Z.neg m1) e1 (Z.min e1 e2) <? scaled (Z.neg m2) e2 (Z.min e1 e2))%Z
        = (scaled (Zpos m2) e2 (Z.min e1 e2) <? scaled (Zpos m1) e1 (Z.min e1 e2))%Z).
      { unfold scaled. rewrite <- !Pos2Z.opp_pos.
        destruct (Z.ltb_spec (Zpos m2 * 2 ^ (e2 - Z.min e1 e2))
                             (Zpos m1 * 2 ^ (e1 - Z.min e1 e2)));
          [apply Z.ltb_lt | apply Z.ltb_ge]; lia. }
      rewrite Hneg, H, (Z.compare_antisym e1 e2).
      destruct (e1 ?= e2)%Z; cbn [CompOpp]; try reflexivity.
      rewrite (Pos.compare_cont_antisym m1 m2 Eq). cbn [CompOpp].
      destruct (Pos.compare_cont Eq m1 m2); reflexivity.
    + unfold scaled. apply Z.ltb_lt. nia.
    + unfold scaled. apply Z.ltb_ge. nia.
    + rewrite (finite_ltb m1 m2 e1 e2 Ha' Hb').
      destruct (e1 ?= e2)%Z; reflexivity.
Qed.

(** *** The result monad *)

Lemma mapM_Ok_Forall2 {A B : Type} (f : A -> result B) (xs : list A) (ys : list B) :
  mapM f xs = Ok ys <-> Forall2 (fun x y => f x = Ok y) xs ys.
Proof.
  revert ys. induction xs as [| x xs IH]; intros ys; simpl.
  - split; intros H.
    + injection H as <-. constructor.
    + inversion H. reflexivity.
  - split; intros H.
    + destruct (f x) as [y |] eqn:Hx; simpl in H; [| discriminate].
      destruct (mapM f xs) as [ys' |] eqn:Hxs; simpl in H; [| discriminate].
      injection H as <-. constructor; [assumption | apply IH; reflexivity].
    + inversion H as [| x' y xs' ys' Hx Hxs]; subst.
      rewrite Hx. simpl. apply IH in Hxs. rewrite Hxs. reflexivity.
Qed.

Lemma mapM_total {A B : Type} (f : A -> result B) (xs : list A) :
  (forall x, In x xs -> exists y, f x = Ok y) -> exists ys, mapM f xs = Ok ys.
Proof.
  induction xs as [| x xs IH]; intros H; simpl.
  - eexists; reflexivity.
  - destruct (H x (or_introl eq_refl)) as [y Hy]. rewrite Hy. simpl.
    destruct IH as [ys Hys]; [intros; apply H; right; assumption |].
    rewrite Hys. simpl. eexists; reflexivity.
Qed.

(** *** Dictionaries *)

Lemma dict_set_fresh {V : Type} (key : string) (v : V) (d : dict V) :
  ~ In key (keys d) -> dict_set key v d = d ++ [(key, v)].
Proof.
  induction d as [| [k w] d IH]; simpl; intros Hk.
  - reflexivity.
  - destruct (String.eqb_spec k key) as [-> | Hne].
    + exfalso. apply Hk. left; reflexivity.
    + rewrite IH; [reflexivity | intros Hin; apply Hk; right; assumption].
Qed.

Lemma dict_set_keys {V : Type} (key : string) (v : V) (d : dict V) :
  keys (dict_set key v d) = if in_dec string_dec key (keys d) then keys d else keys d ++ [key].
Proof.
  induction d as [| [k w] d IH]; simpl.
  - reflexivity.
  - destruct (String.eqb_spec k key) as [-> | Hne].
    + destruct (string_dec key key); [reflexivity | contradiction].
    + simpl. rewrite IH. destruct (string_dec k key); [contradiction |].
      destruct (in_dec string_dec key (keys d)); reflexivity.
Qed.

Lemma dict_set_well_formed {V : Type} (key : string) (v : V) (d : dict V) :
  well_formed d -> well_formed (dict_set key v d).
Proof.
  unfold well_formed. intros Hd. rewrite dict_set_keys.
  destruct (in_dec string_dec key (keys d)) as [Hin | Hnin]; [assumption |].
  apply NoDup_app; [assumption | repeat constructor; intros [] | ].
  intros k Hk [<- | []]. contradiction.
Qed.

Lemma dict_set_values {V : Type} (key : string) (v w : V) (d : dict V) :
  In w (values (dict_set key v d)) -> w = v \/ In w (values d).
Proof.
  induction d as [| [k u] d IH]; simpl.
  - intros [<- | []]. left; reflexivity.
  - destruct (String.eqb k key); simpl.
    + intros [<- | H]; [left; reflexivity | right; right; assumption].
    + intros [<- | H]; [right; left; reflexivity |].
      destruct (IH H) as [-> | H']; [left; reflexivity | right; right; assumption].
Qed.

Lemma dict_get_In {V : Type} (key : string) (v : V) (d : dict V) :
  dict_get key d = Some v -> In (key, v) d.
Proof.
  induction d as [| [k w] d IH]; simpl; [discriminate |].
  destruct (String.eqb_spec k key) as [-> | Hne].
  - intros [= ->]. left; reflexivity.
  - intros H. right. apply IH. assumption.
Qed.

(** *** The line filter on a well-formed dictionary *)

Lemma filter_lines_fold (lines acc : dict line) :
  NoDup (keys acc ++ keys lines) ->
  fold_left
    (fun clean_lines '(key, l) =>
       if (2 <=? num_numbers l)%nat then dict_set key l clean_lines
       else clean_lines)
    lines acc
  = acc ++ filter keeps lines.
Proof.
  revert acc. induction lines as [| [k l] lines IH]; intros acc Hnd.
  - simpl. rewrite app_nil_r. reflexivity.
  - assert (Hk : ~ In k (keys acc)).
    { intros Hin. apply NoDup_remove_2 in Hnd. apply Hnd.
      apply in_or_app. left. assumption. }
    cbn [fold_left filter]. unfold keeps at 1, survives. cbn [snd].
    destruct (2 <=? num_numbers l)%nat.
    + rewrite dict_set_fresh by assumption. rewrite IH.
      * rewrite <- app_assoc. reflexivity.
      * unfold keys in *. rewrite map_app. simpl. rewrite <- app_assoc. simpl.
        assumption.
    + apply IH. unfold keys in *. simpl in Hnd.
      apply NoDup_remove_1 in Hnd. assumption.
Qed.

Lemma filter_lines_filter (lines : dict line) :
  well_formed lines -> filter_lines lines = filter keeps lines.
Proof.
  intros Hwf. unfold filter_lines. rewrite filter_lines_fold; [reflexivity |].
  exact Hwf.
Qed.

Lemma filter_tokens_fold (lines acc : dict line) :
  NoDup (keys acc ++ keys lines) ->
  fold_left
    (fun clean_lines '(key, l) => dict_set key (filter_tokens_line l) clean_lines)
    lines acc
  = acc ++ map (fun kl => (fst kl, filter_tokens_line (snd kl))) lines.
Proof.
  revert acc. induction lines as [| [k l] lines IH]; intros acc Hnd.
  - simpl. rewrite app_nil_r. reflexivity.
  - assert (Hk : ~ In k (keys acc)).
    { intros Hin. apply NoDup_remove_2 in Hnd. apply Hnd.
      apply in_or_app. left. assumption. }
    cbn [fold_left map fst snd].
    rewrite dict_set_fresh by assumption. rewrite IH.
    + rewrite <- app_assoc. reflexivity.
    + unfold keys in *. rewrite map_app. simpl. rewrite <- app_assoc. simpl.
      assumption.
Qed.

Lemma filter_tokens_map (lines : dict line) :
  well_formed lines ->
  filter_tokens lines = map (fun kl => (fst kl, filter_tokens_line (snd kl))) lines.
Proof.
  intros Hwf. unfold filter_tokens. rewrite filter_tokens_fold; [reflexivity |].
  exact Hwf.
Qed.

(** What the loop of the line filter keeps true of [clean_lines]. *)
Lemma filter_lines_invariant (lines acc : dict line) :
  well_formed acc -> Forall (fun kl => keeps kl = true) acc ->
  let d := fold_left
    (fun clean_lines '(key, l) =>
       if (2 <=? num_numbers l)%nat then dict_set key l clean_lines
       else clean_lines)
    lines acc in
  well_formed d /\ Forall (fun kl => keeps kl = true) d.
Proof.
  revert acc. induction lines as [| [k l] lines IH]; intros acc Hwf Hall.
  - simpl. split; assumption.
  - cbn [fold_left]. destruct (2 <=? num_numbers l)%nat eqn:Hl.
    + apply IH.
      * apply dict_set_well_formed. assumption.
      * clear - Hall Hl. induction acc as [| [k' l'] acc IHacc]; simpl.
        -- repeat constructor. exact Hl.
        -- inversion Hall as [| ? ? Hhd Htl]; subst.
           destruct (String.eqb k' k).
           ++ constructor; [exact Hl | assumption].
           ++ constructor; [assumption | apply IHacc; assumption].
    + apply IH; assumption.
Qed.

Lemma filter_all_true {A : Type} (p : A -> bool) (xs : list A) :
  Forall (fun x => p x = true) xs -> filter p xs = xs.
Proof.
  induction 1 as [| x xs Hx _ IH]; simpl; [reflexivity |].
  rewrite Hx, IH. reflexivity.
Qed.

(** C7. The line filter is idempotent: filtering the lines it kept keeps
    all of them, in the same order. *)
Theorem filter_lines_idempotent (lines : dict line) :
  filter_lines (filter_lines lines) = filter_lines lines.
Proof.
  destruct (filter_lines_invariant lines [] (NoDup_nil _) (Forall_nil _))
    as [Hwf Hall].
  fold (filter_lines lines) in Hwf, Hall.
  rewrite (filter_lines_filter (filter_lines lines) Hwf).
  apply filter_all_true. assumption.
Qed.

(** *** The token filter *)

Lemma lt_asym (a b : number) : lt a b = true -> lt b a = false.
Proof.
  intros Hab. destruct (lt b a) eqn:Hba; [| reflexivity].
  rewrite <- (lt_irrefl a). symmetry. apply (lt_trans a b a); assumption.
Qed.

(** The number the loop ends with is the one it started from or a smaller
    number of the line, and no number of the line is smaller than it. *)
Lemma filter_tokens_loop_smallest (l : line) :
  forall s c,
    let s' := fst (filter_tokens_loop s c l) in
    (s' = s \/ (In s' (numbers l) /\ lt s' s = true))
    /\ (forall m, In m (numbers l) -> lt m s' = false).
Proof.
  induction l as [| token l IH]; intros s c; simpl.
  - split; [left; reflexivity | intros m []].
  - destruct token as [| t | n]; simpl; try apply IH.
    specialize (IH (if lt n s then n else s) c).
    simpl in IH. destruct IH as [Hs' Hlow].
    set (s' := fst (filter_tokens_loop (if lt n s then n else s) c l)) in *.
    destruct (lt n s) eqn:Hn.
    + split.
      * right. destruct Hs' as [-> | [Hin Hlt]].
        -- split; [left; reflexivity | assumption].
        -- split; [right; assumption | apply (lt_trans s' n s); assumption].
      * intros m [<- | Hm]; [| apply Hlow; assumption].
        destruct Hs' as [-> | [_ Hlt]]; [apply lt_irrefl | apply lt_asym; assumption].
    + split.
      * destruct Hs' as [-> | [Hin Hlt]]; [left; reflexivity |].
        right. split; [right; assumption | assumption].
      * intros m [<- | Hm]; [| apply Hlow; assumption].
        destruct Hs' as [-> | [_ Hlt]]; [assumption |].
        destruct (lt n s') eqn:Hns; [| reflexivity].
        rewrite <- Hn. symmetry. apply (lt_trans n s' s); assumption.
Qed.

(** The cleaned list grows by tokens that are not numbers. *)
Lemma filter_tokens_loop_clean (l : line) :
  forall s c, numbers c = [] -> numbers (snd (filter_tokens_loop s c l)) = [].
Proof.
  assert (Happ : forall c t, numbers c = [] -> is_number t = false ->
                             numbers (c ++ [t]) = []).
  { induction c as [| x c IHc]; intros t Hc Ht; simpl.
    - destruct t; [reflexivity | reflexivity | discriminate].
    - destruct x; simpl in *; try discriminate; apply IHc; assumption. }
  induction l as [| token l IH]; intros s c Hc; simpl.
  - assumption.
  - destruct token as [| t | n]; simpl; try (apply IH; assumption);
      apply IH; match goal with |- context [if ?b then _ else _] => destruct b end;
      try assumption; apply Happ; auto.
Qed.

Lemma num_numbers_numbers (l : line) : num_numbers l = List.length (numbers l).
Proof.
  unfold num_numbers. induction l as [| [| s | n] l IH]; simpl; congruence.
Qed.

Lemma numbers_app (l1 l2 : line) : numbers (l1 ++ l2) = numbers l1 ++ numbers l2.
Proof.
  induction l1 as [| [| s | n] l1 IH]; simpl; congruence.
Qed.

Lemma numbers_filter_tokens_line (l : line) :
  numbers (filter_tokens_line l) = [fst (filter_tokens_loop sentinel [] l)].
Proof.
  unfold filter_tokens_line.
  pose proof (filter_tokens_loop_clean l sentinel [] eq_refl) as Hc.
  destruct (filter_tokens_loop sentinel [] l) as [s c]. cbn [fst snd] in *.
  rewrite numbers_app, Hc. reflexivity.
Qed.

Lemma sentinel_eqb : number_eqb sentinel sentinel = true.
Proof. vm_compute. reflexivity. Qed.

(** The number the token filter keeps is the minimum of the sentinel and
    the numbers of the line. *)
Lemma smallest_minimum (l : line) :
  minimum_of (sentinel :: numbers l) (fst (filter_tokens_loop sentinel [] l)).
Proof.
  destruct (filter_tokens_loop_smallest l sentinel []) as [Hs' Hlow].
  cbv zeta in Hs', Hlow.
  set (s' := fst (filter_tokens_loop sentinel [] l)) in *.
  split.
  - destruct Hs' as [-> | [Hin Hlt]].
    + exists sentinel. split; [left; reflexivity | apply sentinel_eqb].
    + exists s'. split; [right; assumption |].
      apply (lt_number_eqb_refl s' sentinel). assumption.
  - intros m [<- | Hm]; [| apply Hlow; assumption].
    destruct Hs' as [-> | [_ Hlt]]; [apply lt_irrefl | apply lt_asym; assumption].
Qed.

(** C1 (as amended). The token filter leaves every line with exactly one
    number, as its last token: the minimum of the sentinel [10**20] and the
    numbers of the line, which is the minimum of the numbers of the line
    as soon as one of them is below the sentinel. *)
Theorem filter_tokens_keeps_minimum (l : line) :
  exists texts n,
    filter_tokens_line l = texts ++ [PyNum n]
    /\ num_numbers (filter_tokens_line l) = 1
    /\ minimum_of (sentinel :: numbers l) n
    /\ ((exists m, In m (numbers l) /\ lt m sentinel = true) ->
        minimum_of (numbers l) n).
Proof.
  pose proof (numbers_filter_tokens_line l) as Hnum.
  pose proof (smallest_minimum l) as Hmin.
  destruct (filter_tokens_loop_smallest l sentinel []) as [Hs' Hlow].
  cbv zeta in Hs', Hlow.
  unfold filter_tokens_line in *.
  destruct (filter_tokens_loop sentinel [] l) as [s c]. cbn [fst snd] in *.
  exists c, s. split; [reflexivity |]. split; [| split; [assumption |]].
  - rewrite num_numbers_numbers, Hnum. reflexivity.
  - intros (m & Hm & Hlt). split; [| assumption].
    destruct Hs' as [-> | [Hin Hlts]].
    + rewrite (Hlow m Hm) in Hlt. discriminate.
    + exists s. split; [assumption |].
      apply (lt_number_eqb_refl s sentinel). assumption.
Qed.

(** C1 (as stated) fails on a line whose two numbers are 2e20 and 3e20:
    the token filter leaves the sentinel [10**20], which is none of them. *)
Lemma filter_tokens_minimum_counterexample :
  clean_line [PyStr "200.000.000.000.000.000.000";
              PyStr "300.000.000.000.000.000.000"] = Ok big_line
  /\ ~ token_filter_claim big_line.
Proof.
  split; [vm_compute; reflexivity |].
  intros H. destruct (H eq_refl) as (texts & n & Heq & _ & (m & Hm & Heqb) & _).
  assert (Hl : filter_tokens_line big_line = [] ++ [PyNum sentinel])
    by (vm_compute; reflexivity).
  rewrite Hl in Heq. apply app_inj_tail in Heq. destruct Heq as [_ Hn].
  injection Hn as <-.
  destruct Hm as [<- | [<- | []]]; vm_compute in Heqb; discriminate Heqb.
Qed.

(** *** The record builder *)

Lemma transform_loop_fields (l : line) :
  forall json r,
    transform_loop json l = Ok r ->
    amount r = latest (amount json) (numbers l)
    /\ date r = latest (date json) (filter date_pattern (strings l))
    /\ text r = latest (text json)
                  (filter (fun s => negb (date_pattern s)) (strings l)).
Proof.
  induction l as [| token l IH]; intros json r H; simpl in H.
  - injection H as <-. repeat split.
  - destruct token as [| s | n]; [discriminate | |].
    + simpl. destruct (date_pattern s) eqn:Hs; simpl;
        apply IH in H; simpl in H; exact H.
    + simpl. apply IH in H. simpl in H. exact H.
Qed.

Lemma transform_loop_total (l : line) :
  no_none l -> forall json, exists r, transform_loop json l = Ok r.
Proof.
  unfold no_none.
  induction l as [| token l IH]; intros Hn json; simpl.
  - eexists; reflexivity.
  - destruct token as [| s | n].
    + exfalso. apply Hn. left; reflexivity.
    + destruct (date_pattern s); apply IH; intros Hin; apply Hn; right; assumption.
    + apply IH; intros Hin; apply Hn; right; assumption.
Qed.

Lemma latest_In {A : Type} (xs : list A) (x : A) :
  latest None xs = Some x -> In x xs.
Proof.
  unfold latest.
  assert (H : forall init, fold_left (fun _ y => Some y) xs init = Some x ->
                           init = Some x \/ In x xs).
  { induction xs as [| y xs IH]; intros init Hf; simpl in *.
    - left; assumption.
    - destruct (IH _ Hf) as [[= ->] | Hin]; right; [left; reflexivity | right; assumption]. }
  intros Hf. destruct (H None Hf) as [Hd | Hin]; [discriminate | assumption].
Qed.

(** What the token filter keeps of a line. *)
Lemma filter_tokens_loop_In (l : line) :
  forall s c t,
    In t (snd (filter_tokens_loop s c l)) -> In t c \/ In t l.
Proof.
  induction l as [| token l IH]; intros s c t H; simpl in H.
  - left; assumption.
  - destruct token as [| u | n].
    + apply IH in H. destruct H as [H | H]; [| right; right; assumption].
      destruct (contains c PyNone); [left; assumption |].
      apply in_app_or in H. destruct H as [H | [<- | []]];
        [left; assumption | right; left; reflexivity].
    + apply IH in H. destruct H as [H | H]; [| right; right; assumption].
      destruct (contains c (PyStr u)); [left; assumption |].
      apply in_app_or in H. destruct H as [H | [<- | []]];
        [left; assumption | right; left; reflexivity].
    + apply IH in H. destruct H as [H | H]; [left | right; right]; assumption.
Qed.

Lemma filter_tokens_line_In (l : line) (t : pyval) :
  In t (filter_tokens_line l) -> is_number t = false -> In t l.
Proof.
  unfold filter_tokens_line. intros H Ht.
  pose proof (filter_tokens_loop_In l sentinel [] t) as Hin.
  destruct (filter_tokens_loop sentinel [] l) as [s c]. cbn [snd] in Hin.
  apply in_app_or in H. destruct H as [H | [<- | []]]; [| discriminate].
  destruct (Hin H) as [[] | H']. assumption.
Qed.

Lemma strings_In (l : line) (s : string) : In s (strings l) <-> In (PyStr s) l.
Proof.
  induction l as [| [| u | n] l IH]; simpl.
  - tauto.
  - rewrite IH. split; [tauto | intros [H | H]; [discriminate | tauto]].
  - rewrite IH. split; [intros [-> | H]; tauto | intros [[= ->] | H]; tauto].
  - rewrite IH. split; [tauto | intros [H | H]; [discriminate | tauto]].
Qed.

Lemma filter_tokens_line_no_none (l : line) :
  no_none l -> no_none (filter_tokens_line l).
Proof.
  unfold no_none. intros Hn H. apply Hn.
  apply filter_tokens_line_In; [assumption | reflexivity].
Qed.

(** The record of a filtered line: its amount is the number the token
    filter kept. *)
Lemma transform_filtered_amount (l : line) (r : record) :
  transform_line (filter_tokens_line l) = Ok r ->
  amount r = Some (fst (filter_tokens_loop sentinel [] l)).
Proof.
  intros H. apply transform_loop_fields in H. destruct H as [Ha _].
  rewrite numbers_filter_tokens_line in Ha. exact Ha.
Qed.




(** A record need not have a date or a text. *)
Lemma date_and_text_may_be_absent :
  transform_line (filter_tokens_line
    [PyNum (Float (S754_finite false 4503599627370496 (-52)));
     PyNum (Float (S754_finite false 4503599627370496 (-51)))])
  = Ok (mk_record (Some (Float (S754_finite false 4503599627370496 (-52))))
                  None None).
Proof. vm_compute. reflexivity. Qed.

(** *** The filters and the record builder together *)

Lemma filter_keeps_well_formed (lines : dict line) :
  well_formed lines -> well_formed (filter keeps lines).
Proof.
  unfold well_formed, keys. induction lines as [| [k l] lines IH]; simpl; intros H.
  - constructor.
  - inversion H as [| ? ? Hk Hnd]; subst.
    destruct (keeps (k, l)); [| apply IH; assumption].
    simpl. constructor; [| apply IH; assumption].
    intros Hin. apply Hk. clear - Hin.
    induction lines as [| [k' l'] lines IH]; simpl in *; [assumption |].
    destruct (keeps (k', l')); simpl in *; [destruct Hin |]; auto.
Qed.

Lemma values_filter_keeps (lines : dict line) :
  values (filter keeps lines) = filter survives (values lines).
Proof.
  unfold values. induction lines as [| [k l] lines IH]; simpl; [reflexivity |].
  unfold keeps at 1. simpl. destruct (survives l); simpl; congruence.
Qed.

Lemma values_map_filter_tokens (lines : dict line) :
  values (map (fun kl => (fst kl, filter_tokens_line (snd kl))) lines)
  = map filter_tokens_line (values lines).
Proof.
  unfold values. rewrite !map_map. reflexivity.
Qed.

Lemma Forall2_map_l {A B C : Type} (f : A -> B) (R : B -> C -> Prop)
    (xs : list A) (ys : list C) :
  Forall2 R (map f xs) ys <-> Forall2 (fun x y => R (f x) y) xs ys.
Proof.
  revert ys. induction xs as [| x xs IH]; intros ys; simpl.
  - split; intros H; inversion H; constructor.
  - split; intros H; inversion H; subst; constructor; try assumption;
      apply IH; assumption.
Qed.

(** The filters and the record builder on cleaned lines: one record for
    each line that survives, in order. *)
Lemma cleaned_lines_records (lines : dict line) :
  well_formed lines ->
  (forall l, In l (values lines) -> no_none l) ->
  exists data,
    transform_to_json (filter_tokens (filter_lines lines)) = Ok data
    /\ Forall2 (fun l r => transform_line (filter_tokens_line l) = Ok r)
               (filter survives (values lines)) data.
Proof.
  intros Hwf Hnone.
  rewrite (filter_lines_filter lines Hwf).
  rewrite (filter_tokens_map _ (filter_keeps_well_formed lines Hwf)).
  unfold transform_to_json.
  rewrite values_map_filter_tokens, values_filter_keeps.
  destruct (mapM_total transform_line
              (map filter_tokens_line (filter survives (values lines))))
    as [data Hdata].
  { intros v Hv. apply in_map_iff in Hv. destruct Hv as (l & <- & Hl).
    apply filter_In in Hl. destruct Hl as [Hl _].
    apply transform_loop_total. apply filter_tokens_line_no_none.
    apply Hnone. assumption. }
  exists data. split; [assumption |].
  apply mapM_Ok_Forall2, Forall2_map_l in Hdata. exact Hdata.
Qed.



(** *** Numbers through the cleaning passes *)

Lemma mapM_numbers (f : pyval -> result pyval) :
  (forall n, f (PyNum n) = Ok (PyNum n)) ->
  (forall t t', is_number t = false -> f t = Ok t' -> is_number t' = false) ->
  forall l l', mapM f l = Ok l' -> numbers l' = numbers l.
Proof.
  intros Hnum Hother l l' H. apply mapM_Ok_Forall2 in H.
  induction H as [| t t' l l' Ht _ IH]; [reflexivity |].
  destruct t as [| s | n].
  - apply Hother in Ht; [| reflexivity].
    destruct t'; [| | discriminate]; simpl; exact IH.
  - apply Hother in Ht; [| reflexivity].
    destruct t'; [| | discriminate]; simpl; exact IH.
  - rewrite Hnum in Ht. injection Ht as <-. simpl. f_equal. exact IH.
Qed.

Lemma clean_date_numbers (l l' : line) :
  clean_date l = Ok l' -> numbers l' = numbers l.
Proof.
  apply mapM_numbers; [reflexivity |].
  intros [| s | n] t' Ht H; simpl in H; try discriminate.
  injection H as <-. reflexivity.
Qed.

Lemma clean_text_numbers (l l' : line) :
  clean_text l = Ok l' -> numbers l' = numbers l.
Proof.
  apply mapM_numbers; [reflexivity |].
  intros [| s | n] t' Ht H; simpl in H; try discriminate.
  destruct (date_pattern s); injection H as <-; reflexivity.
Qed.

Lemma remove_useless_tokens_numbers (l : line) :
  forall l', remove_useless_tokens l = Ok l' -> numbers l' = numbers l.
Proof.
  induction l as [| [| s | n] l IH]; intros l' H; simpl in H.
  - injection H as <-. reflexivity.
  - discriminate.
  - destruct (remove_useless_tokens l) as [rest |]; simpl in H; [| discriminate].
    injection H as <-. simpl.
    destruct (useless_tokens_pattern s); simpl; apply IH; reflexivity.
  - destruct (remove_useless_tokens l) as [rest |]; simpl in H; [| discriminate].
    injection H as <-. simpl. f_equal. apply IH. reflexivity.
Qed.

Lemma dict_set_In {V : Type} (key : string) (v : V) (d : dict V) (kv : string * V) :
  In kv (dict_set key v d) -> kv = (key, v) \/ In kv d.
Proof.
  induction d as [| [k w] d IH]; simpl.
  - intros [<- | []]. left; reflexivity.
  - destruct (String.eqb_spec k key) as [-> | Hne]; simpl.
    + intros [<- | H]; [left; reflexivity | right; right; assumption].
    + intros [<- | H]; [right; left; reflexivity |].
      destruct (IH H) as [-> | H']; [left; reflexivity | right; right; assumption].
Qed.

(** The line filter hands lines on as they are. *)
Lemma filter_lines_In (lines : dict line) (kl : string * line) :
  In kl (filter_lines lines) -> In kl lines.
Proof.
  unfold filter_lines.
  assert (H : forall acc,
    In kl (fold_left
             (fun clean_lines '(key, l) =>
                if (2 <=? num_numbers l)%nat then dict_set key l clean_lines
                else clean_lines) lines acc) ->
    In kl acc \/ In kl lines).
  { induction lines as [| [k l] lines IH]; intros acc H; cbn [fold_left] in H.
    - left; assumption.
    - apply IH in H. destruct H as [H | H]; [| right; right; assumption].
      destruct (2 <=? num_numbers l)%nat; [| left; assumption].
      apply dict_set_In in H. destruct H as [-> | H];
        [right; left; reflexivity | left; assumption]. }
  intros Hin. destruct (H [] Hin) as [[] | Hl]. assumption.
Qed.

(** C6. A number stays the number it was parsed as.  The three passes
    after number parsing return every number as it is and keep the numbers
    of a line in order; the line filter hands lines on unchanged; the token
    filter keeps one number, a number of the line or the sentinel; the
    record builder makes the last number of a line the amount and takes
    date and text from the text tokens only. *)
Theorem numbers_stay_numbers :
  (forall n, clean_date_token (PyNum n) = Ok (PyNum n)
             /\ remove_useless_tokens [PyNum n] = Ok [PyNum n]
             /\ clean_text_token (PyNum n) = Ok (PyNum n))
  /\ (forall l l', clean_date l = Ok l' -> numbers l' = numbers l)
  /\ (forall l l', remove_useless_tokens l = Ok l' -> numbers l' = numbers l)
  /\ (forall l l', clean_text l = Ok l' -> numbers l' = numbers l)
  /\ (forall lines kl, In kl (filter_lines lines) -> In kl lines)
  /\ (forall l, exists n, numbers (filter_tokens_line l) = [n]
                          /\ In n (sentinel :: numbers l))
  /\ (forall l r, transform_line l = Ok r ->
        amount r = latest None (numbers l)
        /\ (forall s, date r = Some s -> In (PyStr s) l)
        /\ (forall s, text r = Some s -> In (PyStr s) l)).
Proof.
  split; [intros n; repeat split |].
  split; [exact clean_date_numbers |].
  split; [intros l l'; apply remove_useless_tokens_numbers |].
  split; [exact clean_text_numbers |].
  split; [exact filter_lines_In |].
  split.
  - intros l. exists (fst (filter_tokens_loop sentinel [] l)).
    split; [apply numbers_filter_tokens_line |].
    destruct (filter_tokens_loop_smallest l sentinel []) as [[-> | [Hin _]] _];
      [left; reflexivity | right; assumption].
  - intros l r H. apply transform_loop_fields in H. simpl in H.
    destruct H as (Ha & Hd & Ht). split; [assumption |].
    split; intros s Hs.
    + rewrite Hs in Hd. symmetry in Hd. apply latest_In, filter_In in Hd.
      apply strings_In. tauto.
    + rewrite Hs in Ht. symmetry in Ht. apply latest_In, filter_In in Ht.
      apply strings_In. tauto.
Qed.

(** *** The first scenario *)

Lemma clean_lines_single (key : string) (l : line) :
  clean_lines [(key, l)] = (l' <- clean_line l ;; Ok [(key, l')]).
Proof.
  unfold clean_lines. simpl. rewrite String.eqb_refl.
  destruct (clean_line l) as [l' |]; simpl; reflexivity.
Qed.

(** C2. A single line of the fragments below comes out as one record:
    the text without its trailing blank, the date, and as amount the
    binary64 value nearest to -494.42, the negation of [float("494.42")]. *)
Theorem scenario_gjensidige (key : string) :
  py_float "494.42" = Ok (S754_finite false 8697928624080159 (-44))
  /\ process_lines
       [(key, [PyStr "Gjensidige Forsikring "; PyStr "03.10 ";
               PyStr "494,42 - "; PyStr "3.291,68 "])]
     = Ok [mk_record
             (Some (Float (S754_finite true 8697928624080159 (-44))))
             (Some "03.10"%string) (Some "Gjensidige Forsikring"%string)].
Proof.
  split; [vm_compute; reflexivity |].
  unfold process_lines. rewrite clean_lines_single.
  replace (clean_line [PyStr "Gjensidige Forsikring "; PyStr "03.10 ";
                       PyStr "494,42 - "; PyStr "3.291,68 "])
    with (Ok [PyStr "Gjensidige Forsikring"; PyStr "03.10";
              PyNum (Float (S754_finite true 8697928624080159 (-44)));
              PyNum (Float (S754_finite false 7238480869835407 (-41)))])
    by (vm_compute; reflexivity).
  cbn [bind]. unfold filter_lines, filter_tokens, transform_to_json.
  cbn [fold_left num_numbers filter is_number List.length Nat.leb dict_set values map snd].
  vm_compute. reflexivity.
Qed.

(** *** Character classes *)

Lemma digit_not_space (c : ascii) : is_digit c = true -> is_space c = false.
Proof.
  unfold is_digit, is_space. intros H.
  apply andb_true_iff in H. destruct H as [H1 H2].
  apply N.leb_le in H1, H2.
  repeat (apply orb_false_iff; split);
    try (apply andb_false_iff; right; apply N.leb_gt; lia);
    apply N.eqb_neq; lia.
Qed.

Lemma space_not_digit (c : ascii) : is_space c = true -> is_digit c = false.
Proof.
  intros H. destruct (is_digit c) eqn:Hd; [| reflexivity].
  apply digit_not_space in Hd. congruence.
Qed.

Lemma digit_not_char (c x : ascii) :
  is_digit c = true -> is_digit x = false -> Ascii.eqb c x = false.
Proof.
  intros Hc Hx. destruct (Ascii.eqb_spec c x) as [-> | Hne]; congruence.
Qed.

(** *** Stripping *)

Lemma lstrip_not_space (c : ascii) (s : string) :
  is_space c = false -> lstrip (String c s) = String c s.
Proof. intros H. simpl. rewrite H. reflexivity. Qed.

Lemma rstrip_not_space (c : ascii) (s : string) :
  is_space c = false -> rstrip (String c s) = String c (rstrip s).
Proof. intros H. simpl. rewrite H. reflexivity. Qed.

Lemma rstrip_all_space (s : string) : all_space s = true -> rstrip s = EmptyString.
Proof.
  destruct s as [| c s]; [reflexivity |]. intros H.
  unfold rstrip; fold rstrip. rewrite H. reflexivity.
Qed.

(** *** Dates are not numbers *)

Lemma strip_date_shaped (a b c d : ascii) (blanks : string) :
  is_digit a = true -> is_digit b = true -> is_digit c = true ->
  is_digit d = true -> all_space blanks = true ->
  strip (date_shaped a b c d blanks) = date_shaped a b c d EmptyString.
Proof.
  intros Ha Hb Hc Hd Hw. unfold strip, date_shaped.
  rewrite lstrip_not_space by (apply digit_not_space; assumption).
  rewrite !rstrip_not_space
    by (first [apply digit_not_space; assumption | reflexivity]).
  rewrite rstrip_all_space by assumption. reflexivity.
Qed.

Lemma number_pattern_date_shaped (a b c d : ascii) (blanks : string) :
  is_digit a = true -> is_digit b = true -> is_digit c = true ->
  is_digit d = true -> all_space blanks = true ->
  number_pattern (date_shaped a b c d blanks) = None.
Proof.
  intros Ha Hb Hc Hd Hw. unfold number_pattern, date_shaped.
  cbn [take_digits]. rewrite Ha, Hb.
  replace (is_digit ".") with false by reflexivity.
  cbn [is_empty].
  assert (Hg : take_groups (String "." (String c (String d blanks)))
               = (EmptyString, String "." (String c (String d blanks)))).
  { destruct blanks as [| w blanks]; [reflexivity |].
    cbn [take_groups]. simpl in Hw. apply andb_true_iff in Hw.
    destruct Hw as [Hw _]. rewrite (space_not_digit w Hw).
    rewrite !andb_false_r. reflexivity. }
  rewrite Hg. reflexivity.
Qed.

(** C5. A string of the date shape [DD.MM], with or without blanks after
    it, is not matched by [number_pattern], stripped or not; the number
    pass returns it as the text it was, whether it runs before or after
    the date pass; and [date_pattern] matches it. *)
Theorem dates_are_not_numbers (a b c d : ascii) (blanks : string) :
  is_digit a = true -> is_digit b = true -> is_digit c = true ->
  is_digit d = true -> all_space blanks = true ->
  let s := date_shaped a b c d blanks in
  number_pattern s = None
  /\ number_pattern (strip s) = None
  /\ parse_numbers [PyStr s] = Ok [PyStr s]
  /\ (l <- clean_date [PyStr s] ;; parse_numbers l) = Ok [PyStr (strip s)]
  /\ date_pattern s = true.
Proof.
  intros Ha Hb Hc Hd Hw s.
  assert (Hs : strip s = date_shaped a b c d EmptyString)
    by (apply strip_date_shaped; assumption).
  assert (Hn : number_pattern (strip s) = None)
    by (rewrite Hs; apply number_pattern_date_shaped; auto).
  assert (Hss : strip (strip s) = strip s)
    by (rewrite Hs; apply strip_date_shaped; auto).
  split; [apply number_pattern_date_shaped; assumption |].
  split; [assumption |].
  split; [unfold parse_numbers; cbn [mapM parse_number]; rewrite Hn;
          reflexivity |].
  split; [unfold clean_date, parse_numbers;
          cbn [mapM clean_date_token bind parse_number];
          rewrite Hss, Hn; reflexivity |].
  unfold s, date_shaped, date_pattern. rewrite Ha, Hb, Hc, Hd, Hw. reflexivity.
Qed.

Lemma dates_are_not_numbers_witness :
  let s := date_shaped "0" "3" "1" "0" " " in
  number_pattern s = None
  /\ number_pattern (strip s) = None
  /\ parse_numbers [PyStr s] = Ok [PyStr s]
  /\ (l <- clean_date [PyStr s] ;; parse_numbers l) = Ok [PyStr (strip s)]
  /\ date_pattern s = true.
Proof.
  apply (dates_are_not_numbers "0" "3" "1" "0" " "); reflexivity.
Defined.

(** *** Strings *)

Lemma append_assoc (x y z : string) : ((x ++ y) ++ z = x ++ (y ++ z))%string.
Proof. induction x as [| c x IH]; simpl; congruence. Qed.

Lemma append_nil_r (x : string) : (x ++ "")%string = x.
Proof. induction x as [| c x IH]; simpl; congruence. Qed.

Lemma length_append (x y : string) :
  String.length (x ++ y) = String.length x + String.length y.
Proof. induction x as [| c x IH]; simpl; congruence. Qed.

Lemma all_digits_append (x y : string) :
  all_digits (x ++ y) = all_digits x && all_digits y.
Proof.
  induction x as [| c x IH]; simpl; [reflexivity |].
  rewrite IH, andb_assoc. reflexivity.
Qed.

Lemma replace_append (a : ascii) (b x y : string) :
  replace a b (x ++ y) = (replace a b x ++ replace a b y)%string.
Proof.
  induction x as [| c x IH]; simpl; [reflexivity |].
  destruct (Ascii.eqb c a); rewrite IH; [rewrite append_assoc |]; reflexivity.
Qed.

Lemma replace_digits (a : ascii) (b s : string) :
  is_digit a = false -> all_digits s = true -> replace a b s = s.
Proof.
  intros Ha. induction s as [| c s IH]; simpl; [reflexivity |].
  intros H. apply andb_true_iff in H. destruct H as [Hc Hs].
  rewrite (digit_not_char c a Hc Ha), IH by assumption. reflexivity.
Qed.

Lemma split_at_digits (s : string) :
  all_digits s = true -> split_at "." s = (s, None).
Proof.
  induction s as [| c s IH]; simpl; [reflexivity |].
  intros H. apply andb_true_iff in H. destruct H as [Hc Hs].
  rewrite (digit_not_char c "." Hc eq_refl), IH by assumption. reflexivity.
Qed.

Lemma split_at_point (x y : string) :
  all_digits x = true -> split_at "." (x ++ String "." y) = (x, Some y).
Proof.
  induction x as [| c x IH]; simpl; [reflexivity |].
  intros H. apply andb_true_iff in H. destruct H as [Hc Hs].
  rewrite (digit_not_char c "." Hc eq_refl), IH by assumption. reflexivity.
Qed.

(** *** The value of digits *)

Lemma digits_value_append (acc : N) (x y : string) :
  digits_value acc (x ++ y) = digits_value (digits_value acc x) y.
Proof.
  revert acc. induction x as [| c x IH]; intros acc; simpl; [reflexivity |].
  apply IH.
Qed.

Lemma digits_value_three (acc : N) (g : string) :
  String.length g = 3 -> digits_value acc g = (acc * 1000 + digits_value 0 g)%N.
Proof.
  destruct g as [| a [| b [| c [| ? ?]]]]; try discriminate.
  intros _. cbn [digits_value]. lia.
Qed.

Lemma digits_value_two (acc : N) (g : string) :
  String.length g = 2 -> digits_value acc g = (acc * 100 + digits_value 0 g)%N.
Proof.
  destruct g as [| a [| b [| ? ?]]]; try discriminate.
  intros _. cbn [digits_value]. lia.
Qed.

(** *** What the pieces of the pattern take *)

Lemma take_digits_spec (n : nat) :
  forall s d r,
    take_digits n s = (d, r) ->
    s = (d ++ r)%string /\ all_digits d = true /\ String.length d <= n.
Proof.
  induction n as [| n IH]; intros s d r H.
  - destruct s; injection H as <- <-; repeat split; auto.
  - destruct s as [| c s]; simpl in H.
    + injection H as <- <-. repeat split; auto with arith.
    + destruct (is_digit c) eqn:Hc.
      * destruct (take_digits n s) as [d' r'] eqn:Hd.
        injection H as <- <-. destruct (IH _ _ _ Hd) as (-> & Hall & Hlen).
        simpl. rewrite Hc, Hall. repeat split; auto with arith.
      * injection H as <- <-. repeat split; auto with arith.
Qed.

Lemma take_groups_spec (n : nat) :
  forall s g r,
    String.length s <= n ->
    take_groups s = (g, r) ->
    s = (g ++ r)%string
    /\ exists gs, g = render_groups gs /\ Forall (digits_of_length 3) gs.
Proof.
  assert (Hnone : forall s, s = ("" ++ s)%string
     /\ exists gs, EmptyString = render_groups gs /\ Forall (digits_of_length 3) gs).
  { intros s. split; [reflexivity |]. exists []. split; [reflexivity | constructor]. }
  induction n as [| n IH]; intros s g r Hlen H.
  - destruct s; [| simpl in Hlen; lia]. injection H as <- <-. apply Hnone.
  - destruct s as [| p [| a [| b [| c s]]]];
      try (injection H as <- <-; apply Hnone).
    cbn [take_groups] in H.
    destruct (Ascii.eqb_spec p ".") as [-> | Hp]; cbn [andb] in H;
      [| injection H as <- <-; apply Hnone].
    destruct (is_digit a) eqn:Ha; cbn [andb] in H;
      [| injection H as <- <-; apply Hnone].
    destruct (is_digit b) eqn:Hb; cbn [andb] in H;
      [| injection H as <- <-; apply Hnone].
    destruct (is_digit c) eqn:Hc; cbn [andb] in H;
      [| injection H as <- <-; apply Hnone].
    destruct (take_groups s) as [g' r'] eqn:Hg. injection H as <- <-.
    destruct (IH s g' r') as (-> & gs & -> & Hgs);
      [simpl in Hlen; lia | assumption |].
    split; [reflexivity |].
    exists (String a (String b (String c EmptyString)) :: gs).
    split; [reflexivity |]. constructor; [| assumption].
    split; [simpl; rewrite Ha, Hb, Hc; reflexivity | reflexivity].
Qed.

Lemma take_decimals_spec (s f r : string) :
  take_decimals s = (f, r) ->
  s = (f ++ r)%string
  /\ exists c, f = render_decimals c
               /\ match c with
                  | Some c => digits_of_length 2 c
                  | None => True
                  end.
Proof.
  assert (Hnone : s = ("" ++ s)%string
     /\ exists c, EmptyString = render_decimals c
                  /\ match c with
                     | Some c => digits_of_length 2 c
                     | None => True
                     end).
  { split; [reflexivity |]. exists None. split; [reflexivity | exact I]. }
  intros H. destruct s as [| p [| a [| b s]]];
    try (injection H as <- <-; apply Hnone).
  cbn [take_decimals] in H.
  destruct (Ascii.eqb_spec p ",") as [-> | Hp]; cbn [andb] in H;
    [| injection H as <- <-; apply Hnone].
  destruct (is_digit a) eqn:Ha; cbn [andb] in H;
    [| injection H as <- <-; apply Hnone].
  destruct (is_digit b) eqn:Hb; cbn [andb] in H;
    [| injection H as <- <-; apply Hnone].
  injection H as <- <-. split; [reflexivity |].
  exists (Some (String a (String b EmptyString))).
  split; [reflexivity |].
  split; [simpl; rewrite Ha, Hb; reflexivity | reflexivity].
Qed.

Lemma take_sign_spec (s sign r : string) :
  take_sign s = (sign, r) -> is_sign sign.
Proof.
  unfold is_sign. destruct s as [| c s]; simpl.
  - intros [= <- <-]. left; reflexivity.
  - destruct (Ascii.eqb_spec c "+") as [-> | Hp]; simpl.
    + intros [= <- <-]. right; left; reflexivity.
    + destruct (Ascii.eqb_spec c "-") as [-> | Hm]; intros [= <- <-].
      * right; right; reflexivity.
      * left; reflexivity.
Qed.

(** What [number_pattern] captures is a numeral and a sign. *)
Lemma number_pattern_numeral (s np sign : string) :
  number_pattern s = Some (np, sign) ->
  exists x, numeral_ok x /\ np = render x /\ is_sign sign.
Proof.
  unfold number_pattern. intros H.
  destruct (take_digits 3 s) as [d s1] eqn:Hd.
  destruct (is_empty d) eqn:He; [discriminate |].
  destruct (take_groups s1) as [g s2] eqn:Hg.
  destruct (take_decimals s2) as [f s3] eqn:Hf.
  destruct (take_space s3) as [b s4] eqn:Hb.
  destruct (take_sign s4) as [sg s5] eqn:Hs.
  destruct (at_end s5); [| discriminate]. injection H as <- <-.
  apply take_digits_spec in Hd. destruct Hd as (_ & Hall & Hlen).
  apply (take_groups_spec (String.length s1)) in Hg; [| apply le_n].
  destruct Hg as (_ & gs & -> & Hgs).
  apply take_decimals_spec in Hf. destruct Hf as (_ & c & -> & Hc).
  apply take_sign_spec in Hs.
  exists (mk_numeral d gs c). split; [| split; [reflexivity | assumption]].
  split; [assumption |]. split; [| split; assumption].
  simpl. split; [| assumption]. destruct d; [discriminate | simpl; lia].
Qed.

(** *** The pattern matches every numeral *)

Lemma take_digits_greedy (n : nat) :
  forall d rest,
    all_digits d = true -> String.length d <= n ->
    first_is (fun c => negb (is_digit c)) rest = true ->
    take_digits n (d ++ rest) = (d, rest).
Proof.
  induction n as [| n IH]; intros d rest Hd Hlen Hrest.
  - destruct d; [| simpl in Hlen; lia]. simpl. destruct rest; reflexivity.
  - destruct d as [| c d]; simpl.
    + destruct rest as [| c rest]; [reflexivity |].
      simpl in Hrest. apply negb_true_iff in Hrest. rewrite Hrest. reflexivity.
    + simpl in Hd, Hlen. apply andb_true_iff in Hd. destruct Hd as [Hc Hd].
      rewrite Hc, IH by (auto; lia). reflexivity.
Qed.

Lemma take_groups_none (rest : string) :
  first_is (fun c => negb (Ascii.eqb c ".")) rest = true ->
  take_groups rest = (EmptyString, rest).
Proof.
  destruct rest as [| p [| a [| b [| c rest]]]]; try reflexivity.
  simpl. intros H. apply negb_true_iff in H. rewrite H. reflexivity.
Qed.

Lemma take_groups_greedy (gs : list string) (rest : string) :
  Forall (digits_of_length 3) gs ->
  first_is (fun c => negb (Ascii.eqb c ".")) rest = true ->
  take_groups (render_groups gs ++ rest) = (render_groups gs, rest).
Proof.
  intros Hgs Hrest. induction Hgs as [| g gs [Hg Hlen] _ IH]; simpl.
  - apply take_groups_none. assumption.
  - destruct g as [| a [| b [| c [| ? ?]]]]; try discriminate.
    simpl in Hg. apply andb_true_iff in Hg. destruct Hg as [Ha Hg].
    apply andb_true_iff in Hg. destruct Hg as [Hb Hg].
    apply andb_true_iff in Hg. destruct Hg as [Hc _].
    simpl. rewrite Ha, Hb, Hc, IH. reflexivity.
Qed.

Lemma take_decimals_greedy (c : option string) (rest : string) :
  match c with Some c => digits_of_length 2 c | None => True end ->
  first_is (fun c => negb (Ascii.eqb c ",")) rest = true ->
  take_decimals (render_decimals c ++ rest) = (render_decimals c, rest).
Proof.
  intros Hc Hrest. destruct c as [c |]; simpl.
  - destruct Hc as [Hc Hlen].
    destruct c as [| a [| b [| ? ?]]]; try discriminate.
    simpl in Hc. apply andb_true_iff in Hc. destruct Hc as [Ha Hc].
    apply andb_true_iff in Hc. destruct Hc as [Hb _].
    simpl. rewrite Ha, Hb. reflexivity.
  - destruct rest as [| p [| a [| b rest]]]; try reflexivity.
    simpl in *. apply negb_true_iff in Hrest. rewrite Hrest. reflexivity.
Qed.

(** A numeral of the format, one blank or none, and a sign or none: the
    pattern matches, and captures the numeral and the sign. *)
Lemma number_pattern_accepts (x : numeral) (blank sign : string) :
  numeral_ok x -> is_blank blank -> is_sign sign ->
  number_pattern (render x ++ blank ++ sign) = Some (render x, sign).
Proof.
  intros (Hl & Hlen & Hgs & Hc) Hb Hs.
  assert (Htail : forall p, is_digit p = false -> is_space p = false ->
                    Ascii.eqb "+" p = false -> Ascii.eqb "-" p = false ->
                    first_is (fun c => negb (Ascii.eqb c p)) (blank ++ sign) = true).
  { intros p Hd Hsp Hplus Hminus.
    destruct Hb as [-> | (c & Hcs & ->)]; cbn [String.append first_is].
    - destruct Hs as [-> | [-> | ->]]; cbn [first_is]; [reflexivity | |].
      + rewrite Hplus. reflexivity.
      + rewrite Hminus. reflexivity.
    - destruct (Ascii.eqb_spec c p) as [-> | _]; [congruence | reflexivity]. }
  assert (Htd : first_is (fun c => negb (is_digit c)) (blank ++ sign) = true).
  { destruct Hb as [-> | (c & Hcs & ->)]; simpl.
    - destruct Hs as [-> | [-> | ->]]; reflexivity.
    - rewrite (space_not_digit c Hcs). reflexivity. }
  unfold number_pattern, render.
  rewrite !append_assoc.
  rewrite (take_digits_greedy 3 (leading x)); [| assumption | lia |].
  2:{ destruct (thousands x) as [| g gs]; [| reflexivity].
      destruct (decimals x); [reflexivity | exact Htd]. }
  replace (is_empty (leading x)) with false
    by (destruct (leading x); [simpl in Hlen; lia | reflexivity]).
  rewrite (take_groups_greedy _ _ Hgs).
  2:{ destruct (decimals x); [reflexivity |].
      apply (Htail "."%char); reflexivity. }
  rewrite (take_decimals_greedy _ _ Hc) by (apply (Htail ","%char); reflexivity).
  assert (Hsp : take_space (blank ++ sign) = (blank, sign)).
  { destruct Hb as [-> | (c & Hcs & ->)]; simpl.
    - destruct Hs as [-> | [-> | ->]]; reflexivity.
    - rewrite Hcs. reflexivity. }
  rewrite Hsp.
  replace (take_sign sign) with (sign, EmptyString)
    by (destruct Hs as [-> | [-> | ->]]; reflexivity).
  cbn [at_end]. reflexivity.
Qed.

(** *** [float] of a captured numeral *)

Lemma replace_point_groups (gs : list string) :
  Forall (digits_of_length 3) gs ->
  replace "." EmptyString (render_groups gs) = fold_right String.append EmptyString gs.
Proof.
  induction 1 as [| g gs [Hg _] _ IH]; simpl; [reflexivity |].
  rewrite replace_append, IH, (replace_digits "." _ g eq_refl Hg). reflexivity.
Qed.

Lemma all_digits_groups (gs : list string) :
  Forall (digits_of_length 3) gs ->
  all_digits (fold_right String.append EmptyString gs) = true.
Proof.
  induction 1 as [| g gs [Hg _] _ IH]; simpl; [reflexivity |].
  rewrite all_digits_append, Hg, IH. reflexivity.
Qed.

Lemma digits_value_groups (gs : list string) :
  Forall (digits_of_length 3) gs ->
  forall acc,
    digits_value acc (fold_right String.append EmptyString gs)
    = fold_left (fun acc g => (acc * 1000 + digits_value 0 g)%N) gs acc.
Proof.
  induction 1 as [| g gs [_ Hg] _ IH]; intros acc; simpl; [reflexivity |].
  rewrite digits_value_append, IH, (digits_value_three acc g Hg). reflexivity.
Qed.

(** The string [__parse_numbers] hands to [float]: the digits of the
    numeral, with a point before the decimals. *)
Lemma replace_render (x : numeral) :
  numeral_ok x ->
  replace "," "." (replace "." EmptyString (render x))
  = ((leading x ++ fold_right String.append EmptyString (thousands x))
     ++ match decimals x with
        | Some c => String "." c
        | None => EmptyString
        end)%string.
Proof.
  intros (Hl & _ & Hgs & Hc). unfold render.
  rewrite !replace_append, (replace_point_groups _ Hgs).
  rewrite (replace_digits "." _ _ eq_refl Hl).
  rewrite (replace_digits "," _ _ eq_refl Hl).
  rewrite (replace_digits "," _ _ eq_refl (all_digits_groups _ Hgs)).
  rewrite append_assoc. do 2 f_equal.
  destruct (decimals x) as [c |]; [| reflexivity].
  destruct Hc as [Hc _]. simpl.
  rewrite (replace_digits "." _ _ eq_refl Hc).
  rewrite (replace_digits "," _ _ eq_refl Hc). reflexivity.
Qed.

(** [float] accepts what the pattern captured, and returns the binary64
    value nearest to the magnitude written. *)
Lemma py_float_numeral (x : numeral) :
  numeral_ok x ->
  py_float (replace "," "." (replace "." EmptyString (render x)))
  = Ok (written_float x).
Proof.
  intros Hok. rewrite (replace_render x Hok).
  destruct Hok as (Hl & Hlen & Hgs & Hc).
  set (ds := (leading x ++ fold_right String.append EmptyString (thousands x))%string).
  assert (Hds : all_digits ds = true)
    by (unfold ds; rewrite all_digits_append, Hl, (all_digits_groups _ Hgs);
        reflexivity).
  assert (Hne : is_empty ds = false)
    by (unfold ds; destruct (leading x); [simpl in Hlen; lia | reflexivity]).
  assert (Hv : digits_value 0 ds = whole_part x)
    by (unfold ds, whole_part; rewrite digits_value_append;
        apply digits_value_groups; assumption).
  unfold py_float, written_float, magnitude.
  destruct (decimals x) as [c |].
  - destruct Hc as [Hc Hc2].
    rewrite (split_at_point ds c Hds), Hds, Hc, Hne. cbn [andb negb fst snd].
    rewrite digits_value_append, Hv, (digits_value_two _ c Hc2), Hc2.
    reflexivity.
  - rewrite append_nil_r, (split_at_digits ds Hds), Hds, Hne.
    cbn [andb negb all_digits fst snd String.length pow10].
    rewrite append_nil_r, Hv. reflexivity.
Qed.

(** *** The number pass *)

Lemma parse_number_match (s np sign : string) :
  number_pattern (strip s) = Some (np, sign) ->
  exists x,
    numeral_ok x /\ np = render x /\ is_sign sign
    /\ parse_number (PyStr s)
       = Ok (PyNum (Float (if String.eqb sign "-"
                           then SFopp (written_float x)
                           else written_float x))).
Proof.
  intros H. destruct (number_pattern_numeral _ _ _ H) as (x & Hok & -> & Hs).
  exists x. split; [assumption |]. split; [reflexivity |]. split; [assumption |].
  unfold parse_number. rewrite H, (py_float_numeral x Hok). reflexivity.
Qed.

Lemma parse_number_total (s : string) :
  exists t, parse_number (PyStr s) = Ok t.
Proof.
  destruct (number_pattern (strip s)) as [[np sign] |] eqn:H.
  - destruct (parse_number_match s np sign H) as (x & _ & _ & _ & Hp).
    eexists. exact Hp.
  - unfold parse_number. rewrite H. eexists. reflexivity.
Qed.

(** C3. A fragment the pattern matches, once stripped, is a numeral of the
    Danish format and a sign; the number pass hands [float] the numeral
    with its points removed and its comma turned into a point, and returns
    the binary64 value nearest to the magnitude written, negated exactly
    when the sign is [-].  Every fragment that is, once stripped, a
    numeral of the format, one blank or none, and a sign or none, is parsed
    so.  ["1.234,56 "] becomes 1234.56 and ["494,42 - "] becomes -494.42. *)
Theorem parse_numbers_preserves_value :
  (forall s np sign,
     number_pattern (strip s) = Some (np, sign) ->
     exists x,
       numeral_ok x /\ np = render x /\ is_sign sign
       /\ py_float (replace "," "." (replace "." EmptyString np))
          = Ok (written_float x)
       /\ parse_numbers [PyStr s]
          = Ok [PyNum (Float (if String.eqb sign "-"
                              then SFopp (written_float x)
                              else written_float x))])
  /\ (forall s x blank sign,
        numeral_ok x -> is_blank blank -> is_sign sign ->
        strip s = (render x ++ blank ++ sign)%string ->
        parse_numbers [PyStr s]
        = Ok [PyNum (Float (if String.eqb sign "-"
                            then SFopp (written_float x)
                            else written_float x))])
  /\ py_float "1234.56" = Ok (S754_finite false 5429652300748554 (-42))
  /\ parse_numbers [PyStr "1.234,56 "]
     = Ok [PyNum (Float (S754_finite false 5429652300748554 (-42)))]
  /\ py_float "494.42" = Ok (S754_finite false 8697928624080159 (-44))
  /\ parse_numbers [PyStr "494,42 - "]
     = Ok [PyNum (Float (S754_finite true 8697928624080159 (-44)))].
Proof.
  split; [| split; [| repeat split; vm_compute; reflexivity]].
  - intros s np sign H.
    destruct (parse_number_match s np sign H) as (x & Hok & -> & Hs & Hp).
    exists x. split; [assumption |]. split; [reflexivity |].
    split; [assumption |]. split.
    + apply py_float_numeral. assumption.
    + unfold parse_numbers. cbn [mapM]. rewrite Hp. reflexivity.
  - intros s x blank sign Hok Hb Hs Hstrip.
    unfold parse_numbers. cbn [mapM]. unfold parse_number.
    rewrite Hstrip, (number_pattern_accepts x blank sign Hok Hb Hs).
    rewrite (py_float_numeral x Hok). reflexivity.
Qed.

Lemma parse_numbers_preserves_value_witness :
  exists x,
    numeral_ok x /\ "3.291,68"%string = render x /\ is_sign ""%string
    /\ py_float (replace "," "." (replace "." EmptyString "3.291,68"))
       = Ok (written_float x)
    /\ parse_numbers [PyStr "3.291,68 "]
       = Ok [PyNum (Float (if String.eqb "" "-"
                           then SFopp (written_float x)
                           else written_float x))].
Proof.
  apply (proj1 parse_numbers_preserves_value "3.291,68 "%string). reflexivity.
Defined.


(** *** The line grouper *)

Lemma dict_get_set_same {V : Type} (k : string) (v : V) (d : dict V) :
  dict_get k (dict_set k v d) = Some v.
Proof.
  induction d as [| [k' w] d IH]; simpl.
  - rewrite String.eqb_refl. reflexivity.
  - destruct (String.eqb k' k) eqn:Hk; simpl; rewrite Hk; [reflexivity | exact IH].
Qed.

Lemma dict_get_set_other {V : Type} (k k' : string) (v : V) (d : dict V) :
  k' <> k -> dict_get k' (dict_set k v d) = dict_get k' d.
Proof.
  intros Hne. induction d as [| [k0 w] d IH]; simpl.
  - destruct (String.eqb_spec k k'); [congruence | reflexivity].
  - destruct (String.eqb_spec k0 k) as [-> | Hk0]; simpl.
    + destruct (String.eqb_spec k k'); [congruence | reflexivity].
    + destruct (String.eqb k0 k'); [reflexivity | exact IH].
Qed.

(** One fragment more: appended to the list under its key, which is
    created when it is not there; the other keys keep their lists. *)
Lemma add_fragment_get (k k' : string) (x : pyval) (d : dict line) :
  dict_get k' (add_fragment k x d)
  = if String.eqb k k'
    then Some (match dict_get k d with
               | Some fragments => fragments ++ [x]
               | None => [x]
               end)
    else dict_get k' d.
Proof.
  unfold add_fragment. destruct (String.eqb_spec k k') as [<- | Hne].
  - destruct (dict_get k d); apply dict_get_set_same.
  - destruct (dict_get k d); apply dict_get_set_other; congruence.
Qed.

Lemma add_fragment_well_formed (k : string) (x : pyval) (d : dict line) :
  well_formed d -> well_formed (add_fragment k x d).
Proof.
  unfold add_fragment. destruct (dict_get k d); apply dict_set_well_formed.
Qed.

Lemma grouped_well_formed (es : list (string * pyval)) :
  forall d, well_formed d -> well_formed (grouped es d).
Proof.
  induction es as [| e es IH]; intros d Hd; simpl; [assumption |].
  apply IH, add_fragment_well_formed, Hd.
Qed.

Lemma grouped_get (k : string) (es : list (string * pyval)) :
  forall d,
    dict_get k (grouped es d)
    = match dict_get k d, fragments_under k es with
      | None, [] => None
      | None, fs => Some fs
      | Some old, fs => Some (old ++ fs)
      end.
Proof.
  unfold fragments_under.
  induction es as [| [k' x] es IH]; intros d; simpl.
  - destruct (dict_get k d); [rewrite app_nil_r |]; reflexivity.
  - rewrite IH, add_fragment_get. cbn [fst snd].
    destruct (String.eqb_spec k' k) as [-> | Hne]; [| reflexivity].
    cbn [map snd]. destruct (dict_get k d) as [old |].
    + rewrite <- app_assoc. reflexivity.
    + reflexivity.
Qed.

Lemma text_element_fragment (l : element) (x : pyval) :
  fragment_of l x -> text_element l = Ok x.
Proof.
  unfold text_element. intros [s Hs Hne | box Hs Hbox].
  - rewrite Hs. destruct s; [contradiction | reflexivity].
  - destruct Hs as [-> | ->]; rewrite Hbox; reflexivity.
Qed.

Section LineGrouperProofs.

Variable py_int : option string -> result Z.
Variable py_float_attr : option string -> result float.
Variable str_int : Z -> string.
Variable str_float : float -> string.

Let entry := line_entry py_int py_float_attr str_int str_float.

Lemma extract_line_entry (page l : element) (e : string * pyval)
    (page_num : Z) (d : dict line) :
  py_int (get "pageid" page) = Ok page_num ->
  entry (page, l) e ->
  extract_line py_float_attr str_int str_float page_num d l
  = Ok (add_fragment (fst e) (snd e) d).
Proof.
  intros Hp (n & y & Hn & Hy & Hk & Hf). cbn [fst snd] in *.
  rewrite Hp in Hn. injection Hn as <-.
  unfold extract_line. rewrite Hy. cbn [bind].
  rewrite (text_element_fragment l (snd e) Hf). cbn [bind].
  rewrite Hk. reflexivity.
Qed.

Lemma extract_page_entries (page : element) (page_num : Z) :
  py_int (get "pageid" page) = Ok page_num ->
  forall ls es d,
    Forall2 entry (map (pair page) ls) es ->
    foldM (extract_line py_float_attr str_int str_float page_num) d ls
    = Ok (grouped es d).
Proof.
  intros Hp. induction ls as [| l ls IH]; intros es d H; simpl in H.
  - inversion H. reflexivity.
  - inversion H as [| ? e ? es' He Hes]; subst. cbn [foldM].
    rewrite (extract_line_entry page l e page_num d Hp He). cbn [bind].
    change (grouped (e :: es') d)
      with (grouped es' (add_fragment (fst e) (snd e) d)).
    apply IH. assumption.
Qed.

Lemma extract_pages_entries (pages : list element) :
  Forall (fun page => exists page_num,
            py_int (get "pageid" page) = Ok page_num) pages ->
  forall es d,
    Forall2 entry
      (flat_map (fun page =>
                   map (pair page) (findall "LTTextLineHorizontal" page))
                pages) es ->
    foldM (extract_page py_int py_float_attr str_int str_float) d pages
    = Ok (grouped es d).
Proof.
  induction 1 as [| page pages [page_num Hp] _ IH]; intros es d H; simpl in H.
  - inversion H. reflexivity.
  - apply Forall2_app_inv_l in H. destruct H as (es1 & es2 & H1 & H2 & ->).
    cbn [foldM]. unfold extract_page at 1. rewrite Hp. cbn [bind].
    rewrite (extract_page_entries page page_num Hp _ es1 d H1). cbn [bind].
    rewrite (IH es2 _ H2). unfold grouped. rewrite fold_left_app. reflexivity.
Qed.

(** C9. When every page has a page number and every line visited has a
    vertical offset and a fragment (its direct text if present, else the
    text of its first nested text box), [__extract_lines] returns a
    dictionary that holds, under each key ["P<page>L<y0>"], the fragments
    of the lines with that key in the order they were visited, and holds
    no other key. *)
Theorem extract_lines_groups_fragments (root : element)
    (es : list (string * pyval)) :
  pages_numbered py_int root ->
  Forall2 entry (visits root) es ->
  exists lines,
    extract_lines py_int py_float_attr str_int str_float root = Ok lines
    /\ well_formed lines
    /\ forall k,
         dict_get k lines
         = match fragments_under k es with
           | [] => None
           | fragments => Some fragments
           end.
Proof.
  intros Hpages Hes. exists (grouped es []).
  split; [apply extract_pages_entries; assumption |].
  split; [apply grouped_well_formed; constructor |].
  intros k. rewrite grouped_get. reflexivity.
Qed.

End LineGrouperProofs.

Lemma extract_lines_groups_fragments_witness :
  exists lines,
    extract_lines example_int example_float example_str_int example_str_float
      example_tree = Ok lines
    /\ well_formed lines
    /\ forall k,
         dict_get k lines
         = match fragments_under k example_entries with
           | [] => None
           | fragments => Some fragments
           end.
Proof.
  apply extract_lines_groups_fragments.
  - repeat constructor. exists 1%Z. reflexivity.
  - repeat constructor.
    + eexists 1%Z, _. split; [reflexivity |]. split; [reflexivity |].
      split; [vm_compute; reflexivity |].
      apply direct_text; [reflexivity | discriminate].
    + eexists 1%Z, _. split; [reflexivity |]. split; [reflexivity |].
      split; [vm_compute; reflexivity |].
      apply (nested_text _ (Element "LTTextBoxHorizontal" [] (Some "03.10 ") []));
        [left; reflexivity | reflexivity].
    + eexists 1%Z, _. split; [reflexivity |]. split; [reflexivity |].
      split; [vm_compute; reflexivity |].
      apply direct_text; [reflexivity | discriminate].
Defined.

Example extract_lines_example :
  extract_lines example_int example_float example_str_int example_str_float
    example_tree
  = Ok [("P1L8241006775948542p-44", [PyStr "494,42 - "; PyStr "03.10 "]);
        ("P1L7742321078147482p-44", [PyStr "Netto "])].
Proof. vm_compute. reflexivity. Qed.

(** *** The whole pipeline on text fragments *)

Lemma mapM_no_none (f : pyval -> result pyval) (p : pyval -> bool) :
  (forall t, p t = true -> exists t', f t = Ok t' /\ t' <> PyNone) ->
  forall l, forallb p l = true ->
    exists l', mapM f l = Ok l' /\ no_none l'.
Proof.
  intros Hf. induction l as [| t l IH]; simpl; intros H.
  - exists []. split; [reflexivity | intros []].
  - apply andb_true_iff in H. destruct H as [Ht Hl].
    destruct (Hf t Ht) as (t' & Ht' & Hn). destruct (IH Hl) as (l' & Hl' & Hnn).
    rewrite Ht', Hl'. simpl. exists (t' :: l'). split; [reflexivity |].
    intros [Heq | Hin]; [apply Hn; assumption | apply Hnn; assumption].
Qed.

Lemma no_none_forallb (l : line) :
  no_none l -> forallb (fun t => negb (pyval_eqb t PyNone)) l = true.
Proof.
  unfold no_none. induction l as [| t l IH]; simpl; intros H; [reflexivity |].
  rewrite IH by (intros Hin; apply H; right; assumption).
  destruct t; simpl; try reflexivity. exfalso. apply H. left; reflexivity.
Qed.

Lemma remove_useless_tokens_no_none (l : line) :
  no_none l -> exists l', remove_useless_tokens l = Ok l' /\ no_none l'.
Proof.
  unfold no_none. induction l as [| t l IH]; simpl; intros H.
  - exists []. split; [reflexivity | intros []].
  - destruct IH as (l' & Hl' & Hn); [intros Hin; apply H; right; assumption |].
    destruct t as [| s | n].
    + exfalso. apply H. left; reflexivity.
    + rewrite Hl'. simpl. eexists. split; [reflexivity |].
      destruct (useless_tokens_pattern s); [assumption |].
      intros [Heq | Hin]; [discriminate | apply Hn; assumption].
    + rewrite Hl'. simpl. eexists. split; [reflexivity |].
      intros [Heq | Hin]; [discriminate | apply Hn; assumption].
Qed.

(** The four passes raise nothing on a line of text fragments, and leave
    no [None] in it. *)
Lemma clean_line_text (l : line) :
  forallb is_str l = true -> exists l', clean_line l = Ok l' /\ no_none l'.
Proof.
  intros Hl. unfold clean_line.
  destruct (mapM_no_none parse_number is_str) with (l := l) as (l1 & H1 & N1);
    [| assumption |].
  { intros [| s | n] Ht; try discriminate.
    destruct (parse_number_total s) as [t' Ht']. exists t'. split; [assumption |].
    unfold parse_number in Ht'.
    destruct (number_pattern (strip s)) as [[np sign] |].
    - destruct (py_float _); simpl in Ht'; [| discriminate].
      injection Ht' as <-. discriminate.
    - injection Ht' as <-. discriminate. }
  unfold parse_numbers. rewrite H1. cbn [bind].
  destruct (mapM_no_none clean_date_token (fun t => negb (pyval_eqb t PyNone)))
    with (l := l1) as (l2 & H2 & N2); [| apply no_none_forallb; assumption |].
  { intros [| s | n] Ht; try discriminate; eexists; split;
      try reflexivity; discriminate. }
  unfold clean_date. rewrite H2. cbn [bind].
  destruct (remove_useless_tokens_no_none l2 N2) as (l3 & H3 & N3).
  rewrite H3. cbn [bind].
  destruct (mapM_no_none clean_text_token (fun t => negb (pyval_eqb t PyNone)))
    with (l := l3) as (l4 & H4 & N4); [| apply no_none_forallb; assumption |].
  { intros [| s | n] Ht; try discriminate.
    - simpl. destruct (date_pattern s); eexists; split; try reflexivity; discriminate.
    - eexists; split; [reflexivity | discriminate]. }
  unfold clean_text. rewrite H4. exists l4. split; [reflexivity | assumption].
Qed.

(** [__clean_lines] on a well-formed dictionary cleans every line where
    it stands. *)
Lemma clean_lines_foldM (suf pre : dict line) :
  NoDup (keys pre ++ keys suf) ->
  foldM
    (fun d key =>
       match dict_get key d with
       | Some l => l' <- clean_line l ;; Ok (dict_set key l' d)
       | None => Raise KeyError
       end)
    (pre ++ suf) (keys suf)
  = (suf' <- mapM (fun kl => l' <- clean_line (snd kl) ;; Ok (fst kl, l')) suf ;;
     Ok (pre ++ suf')).
Proof.
  revert pre. induction suf as [| [k l] suf IH]; intros pre Hnd.
  - simpl. reflexivity.
  - assert (Hk : ~ In k (keys pre)).
    { intros Hin. apply NoDup_remove_2 in Hnd. apply Hnd.
      apply in_or_app. left. assumption. }
    assert (Hget : forall v, dict_get k (pre ++ (k, v) :: suf) = Some v).
    { intros v. clear - Hk. induction pre as [| [k' w] pre IHp]; simpl.
      - rewrite String.eqb_refl. reflexivity.
      - destruct (String.eqb_spec k' k) as [-> | Hne].
        + exfalso. apply Hk. left; reflexivity.
        + apply IHp. intros Hin. apply Hk. right; assumption. }
    assert (Hset : forall v v', dict_set k v' (pre ++ (k, v) :: suf)
                                = pre ++ (k, v') :: suf).
    { intros v v'. clear - Hk. induction pre as [| [k' w] pre IHp]; simpl.
      - rewrite String.eqb_refl. reflexivity.
      - destruct (String.eqb_spec k' k) as [-> | Hne].
        + exfalso. apply Hk. left; reflexivity.
        + rewrite IHp; [reflexivity |]. intros Hin. apply Hk. right; assumption. }
    cbn [keys map fst foldM mapM snd]. rewrite Hget.
    destruct (clean_line l) as [l' |]; cbn [bind]; [| reflexivity].
    rewrite Hset.
    replace (pre ++ (k, l') :: suf) with ((pre ++ [(k, l')]) ++ suf)
      by (rewrite <- app_assoc; reflexivity).
    fold (keys suf). rewrite IH.
    + destruct (mapM _ suf) as [suf' |]; cbn [bind]; [| reflexivity].
      rewrite <- app_assoc. reflexivity.
    + unfold keys in *. rewrite map_app. simpl. rewrite <- app_assoc. simpl.
      assumption.
Qed.

Lemma clean_lines_text (lines : dict line) :
  well_formed lines ->
  (forall l, In l (values lines) -> forallb is_str l = true) ->
  exists cleaned,
    clean_lines lines = Ok cleaned
    /\ keys cleaned = keys lines
    /\ (forall l, In l (values cleaned) -> no_none l).
Proof.
  intros Hwf Htext. unfold clean_lines.
  pose proof (clean_lines_foldM lines [] Hwf) as Hf. cbn [app] in Hf.
  rewrite Hf. clear Hf.
  assert (H : exists cleaned,
    mapM (fun kl => l' <- clean_line (snd kl) ;; Ok (fst kl, l')) lines = Ok cleaned
    /\ keys cleaned = keys lines
    /\ (forall l, In l (values cleaned) -> no_none l)).
  { clear Hwf. induction lines as [| [k l] lines IH]; cbn [mapM].
    - exists []. repeat split. intros l [].
    - destruct (clean_line_text l) as (l' & Hl' & Hn);
        [apply Htext; left; reflexivity |].
      destruct IH as (cleaned & Hc & Hk & Hnn);
        [intros l0 Hl0; apply Htext; right; assumption |].
      cbn [fst snd]. rewrite Hl'. cbn [bind]. rewrite Hc. cbn [bind].
      exists ((k, l') :: cleaned). split; [reflexivity |].
      split; [simpl; rewrite Hk; reflexivity |].
      intros l0 [<- | Hl0]; [assumption | apply Hnn; assumption]. }
  destruct H as (cleaned & Hc & Hk & Hnn). rewrite Hc. cbn [bind app].
  exists cleaned. repeat split; assumption.
Qed.

(** On a dictionary of text fragments, as [__extract_lines] returns it,
    the pipeline raises nothing, and every record has an amount. *)
Lemma process_lines_returns (lines : dict line) :
  well_formed lines ->
  (forall l, In l (values lines) -> forallb is_str l = true) ->
  exists data,
    process_lines lines = Ok data
    /\ Forall (fun r => amount r <> None) data.
Proof.
  intros Hwf Htext.
  destruct (clean_lines_text lines Hwf Htext) as (cleaned & Hc & Hk & Hnn).
  unfold process_lines. rewrite Hc. cbn [bind].
  assert (Hwfc : well_formed cleaned) by (unfold well_formed; rewrite Hk; exact Hwf).
  destruct (cleaned_lines_records cleaned Hwfc Hnn) as (data & Hd & Hall).
  exists data. split; [assumption |].
  clear - Hall. induction Hall as [| l r ls rs Hr _ IH]; constructor;
    [| assumption].
  rewrite (transform_filtered_amount l r Hr). discriminate.
Qed.

(** *** Duplicates in the token filter *)

Lemma pyval_eqb_eq (a b : pyval) :
  is_number a = false -> (pyval_eqb a b = true <-> a = b).
Proof.
  destruct a as [| s | n], b as [| u | m]; simpl; intros Ha;
    try discriminate; try (split; [discriminate | discriminate]);
    try (split; reflexivity).
  rewrite String.eqb_eq. split; [intros -> | intros [= ->]]; reflexivity.
Qed.

Lemma pyval_eqb_sym_text (a b : pyval) :
  is_number a = false -> is_number b = false -> pyval_eqb a b = pyval_eqb b a.
Proof.
  destruct a as [| s | n], b as [| u | m]; simpl; intros Ha Hb;
    try discriminate; try reflexivity.
  apply String.eqb_sym.
Qed.

Lemma filter_tokens_loop_fst (l : line) :
  forall s c,
    fst (filter_tokens_loop s c l)
    = fold_left (fun s n => if lt n s then n else s) (numbers l) s.
Proof.
  induction l as [| [| u | n] l IH]; intros s c; simpl; auto.
Qed.

Lemma filter_filter {A : Type} (p q : A -> bool) (xs : list A) :
  filter p (filter q xs) = filter (fun x => q x && p x) xs.
Proof.
  induction xs as [| x xs IH]; simpl; [reflexivity |].
  destruct (q x); simpl; [destruct (p x) |]; rewrite IH; reflexivity.
Qed.

Lemma first_occurrences_texts (l : line) :
  Forall (fun t => is_number t = false) l ->
  Forall (fun t => is_number t = false) (first_occurrences l).
Proof.
  induction 1 as [| t l Ht _ IH]; simpl; constructor; [assumption |].
  apply Forall_forall. intros u Hu. apply filter_In in Hu.
  destruct Hu as [Hu _]. rewrite Forall_forall in IH. apply IH. assumption.
Qed.

Lemma filter_tokens_loop_snd (l : line) :
  Forall (fun t => is_number t = false) l ->
  forall s c,
    snd (filter_tokens_loop s c l)
    = c ++ filter (fun u => negb (contains c u)) (first_occurrences l).
Proof.
  induction 1 as [| t l Ht Hl IH]; intros s c.
  - simpl. rewrite app_nil_r. reflexivity.
  - assert (Hstep : filter_tokens_loop s c (t :: l)
                    = filter_tokens_loop s
                        (if contains c t then c else c ++ [t]) l)
      by (destruct t; [reflexivity | reflexivity | discriminate]).
    rewrite Hstep, IH. cbn [first_occurrences filter].
    rewrite filter_filter.
    destruct (contains c t) eqn:Hc; cbn [negb].
    + f_equal. apply filter_ext_in. intros u Hu.
      destruct (contains c u) eqn:Hcu; [rewrite andb_false_r; reflexivity |].
      rewrite andb_true_r. cbn [negb].
      destruct (pyval_eqb u t) eqn:Hut; [| reflexivity].
      assert (Hun : is_number u = false).
      { pose proof (first_occurrences_texts l Hl) as Hf.
        rewrite Forall_forall in Hf. apply Hf. assumption. }
      apply (pyval_eqb_eq u t Hun) in Hut. subst u. congruence.
    + rewrite <- app_assoc. cbn [app]. do 2 f_equal.
      apply filter_ext_in. intros u Hu.
      assert (Hun : is_number u = false).
      { pose proof (first_occurrences_texts l Hl) as Hf.
        rewrite Forall_forall in Hf. apply Hf. assumption. }
      unfold contains. rewrite existsb_app. cbn [existsb].
      rewrite orb_false_r, negb_orb. apply andb_comm.
Qed.

Lemma filter_tokens_loop_snd_texts (l : line) :
  forall s s' c,
    snd (filter_tokens_loop s c l) = snd (filter_tokens_loop s' c (texts l)).
Proof.
  induction l as [| [| u | n] l IH]; intros s s' c; simpl; auto.
Qed.

Lemma texts_not_numbers (l : line) :
  Forall (fun t => is_number t = false) (texts l).
Proof.
  apply Forall_forall. intros t Ht. apply filter_In in Ht.
  destruct Ht as [_ Ht]. apply negb_true_iff. assumption.
Qed.

Lemma filter_true {A : Type} (xs : list A) : filter (fun _ => true) xs = xs.
Proof. induction xs as [| x xs IH]; simpl; congruence. Qed.

(** The token filter returns the first occurrence of every token that is
    not a number, and then the number it kept. *)
Lemma filter_tokens_line_first_occurrences (l : line) :
  filter_tokens_line l
  = first_occurrences (texts l) ++ [PyNum (smallest_of (numbers l))].
Proof.
  unfold filter_tokens_line, smallest_of.
  pose proof (filter_tokens_loop_fst l sentinel []) as Hf.
  pose proof (filter_tokens_loop_snd_texts l sentinel sentinel []) as Hs.
  rewrite (filter_tokens_loop_snd (texts l) (texts_not_numbers l)) in Hs.
  destruct (filter_tokens_loop sentinel [] l) as [s c]. cbn [fst snd] in *.
  subst s c. cbn [app contains existsb negb]. rewrite filter_true. reflexivity.
Qed.

(** No token is twice among the first occurrences. *)
Lemma first_occurrences_NoDup (l : line) :
  Forall (fun t => is_number t = false) l -> NoDup (first_occurrences l).
Proof.
  induction 1 as [| t l Ht _ IH]; simpl; constructor.
  - intros Hin. apply filter_In in Hin. destruct Hin as [_ Hin].
    assert (H : pyval_eqb t t = true) by (apply pyval_eqb_eq; auto).
    rewrite H in Hin. discriminate.
  - apply NoDup_filter. assumption.
Qed.

Lemma first_occurrences_In (l : line) (t : pyval) :
  Forall (fun t => is_number t = false) l ->
  (In t (first_occurrences l) <-> In t l).
Proof.
  induction 1 as [| u l Hu Hl IH]; simpl; [tauto |].
  rewrite filter_In, IH. split.
  - intros [-> | [Hin _]]; auto.
  - intros [-> | Hin]; [left; reflexivity |].
    destruct (pyval_eqb t u) eqn:Htu.
    + left. symmetry. apply pyval_eqb_eq in Htu; [assumption |].
      rewrite Forall_forall in Hl. apply Hl. assumption.
    + right. split; [assumption | reflexivity].
Qed.

Lemma first_occurrences_idempotent (l : line) :
  Forall (fun t => is_number t = false) l ->
  first_occurrences (first_occurrences l) = first_occurrences l.
Proof.
  intros Hl.
  assert (H : forall xs, Forall (fun t => is_number t = false) xs ->
                NoDup xs -> first_occurrences xs = xs).
  { induction 1 as [| t xs Ht Hxs IH]; intros Hnd; simpl; [reflexivity |].
    inversion Hnd as [| ? ? Hnin Hnd']; subst. rewrite IH by assumption.
    f_equal. rewrite <- (filter_true xs) at 2. apply filter_ext_in.
    intros u Hu. apply negb_true_iff.
    destruct (pyval_eqb u t) eqn:Hut; [| reflexivity].
    apply pyval_eqb_eq in Hut; [subst; contradiction |].
    rewrite Forall_forall in Hxs. apply Hxs. assumption. }
  apply H; [apply first_occurrences_texts | apply first_occurrences_NoDup];
    assumption.
Qed.

Lemma texts_app (l1 l2 : line) : texts (l1 ++ l2) = texts l1 ++ texts l2.
Proof. unfold texts. apply filter_app. Qed.

Lemma texts_id (l : line) :
  Forall (fun t => is_number t = false) l -> texts l = l.
Proof.
  induction 1 as [| t l Ht _ IH]; unfold texts in *; simpl; [reflexivity |].
  rewrite Ht, IH. reflexivity.
Qed.

Lemma numbers_texts (l : line) :
  Forall (fun t => is_number t = false) l -> numbers l = [].
Proof.
  induction 1 as [| [| s | n] l Ht _ IH]; simpl; try assumption; try reflexivity.
  discriminate.
Qed.

(** The number kept is the sentinel or below it. *)
Lemma smallest_of_le_sentinel (ns : list number) :
  smallest_of ns = sentinel \/ lt (smallest_of ns) sentinel = true.
Proof.
  unfold smallest_of.
  assert (H : forall s,
    (s = sentinel \/ lt s sentinel = true) ->
    let s' := fold_left (fun s n => if lt n s then n else s) ns s in
    s' = sentinel \/ lt s' sentinel = true).
  { induction ns as [| n ns IH]; intros s Hs; simpl; [assumption |].
    apply IH. destruct (lt n s) eqn:Hn; [| assumption].
    right. destruct Hs as [-> | Hs]; [assumption |].
    apply (lt_trans n s sentinel); assumption. }
  apply H. left; reflexivity.
Qed.

(** X1. The token filter returns the first occurrence of every token of
    the line that is not a number, in the order of the line, and then the
    number it kept: no text token is there twice, and none is lost. *)
Theorem filter_tokens_keeps_first_occurrences (l : line) :
  filter_tokens_line l
  = first_occurrences (texts l) ++ [PyNum (smallest_of (numbers l))]
  /\ NoDup (first_occurrences (texts l))
  /\ forall t,
       In t (first_occurrences (texts l)) <-> In t l /\ is_number t = false.
Proof.
  split; [apply filter_tokens_line_first_occurrences |].
  split; [apply first_occurrences_NoDup, texts_not_numbers |].
  intros t. rewrite (first_occurrences_In _ t (texts_not_numbers l)).
  unfold texts. rewrite filter_In, negb_true_iff. reflexivity.
Qed.

(** X2. Filtering the tokens of a filtered line changes nothing. *)
Theorem filter_tokens_line_idempotent (l : line) :
  filter_tokens_line (filter_tokens_line l) = filter_tokens_line l.
Proof.
  rewrite (filter_tokens_line_first_occurrences (filter_tokens_line l)).
  rewrite (filter_tokens_line_first_occurrences l).
  pose proof (first_occurrences_texts _ (texts_not_numbers l)) as Hf.
  rewrite texts_app, numbers_app, (texts_id _ Hf), (numbers_texts _ Hf).
  cbn [texts filter is_number negb numbers app].
  rewrite app_nil_r, (first_occurrences_idempotent _ (texts_not_numbers l)).
  do 3 f_equal. unfold smallest_of at 1. cbn [fold_left].
  destruct (smallest_of_le_sentinel (numbers l)) as [-> | ->];
    [rewrite lt_irrefl |]; reflexivity.
Qed.

(** *** Looking lines up after the filters *)






Lemma dict_get_map {V W : Type} (f : V -> W) (k : string) (d : dict V) :
  dict_get k (map (fun kv => (fst kv, f (snd kv))) d)
  = option_map f (dict_get k d).
Proof.
  induction d as [| [k' v] d IH]; simpl; [reflexivity |].
  destruct (String.eqb k' k); [reflexivity | exact IH].
Qed.

(** X4. On a dictionary, the token filter keeps every key, in order, and
    holds under each key the filtered tokens of the line it had. *)
Theorem filter_tokens_lookup (lines : dict line) :
  well_formed lines ->
  keys (filter_tokens lines) = keys lines
  /\ forall k,
       dict_get k (filter_tokens lines)
       = option_map filter_tokens_line (dict_get k lines).
Proof.
  intros Hwf. rewrite (filter_tokens_map lines Hwf). split.
  - unfold keys. rewrite map_map. reflexivity.
  - intros k. apply dict_get_map.
Qed.

Lemma filter_tokens_lookup_witness :
  keys (filter_tokens cleaned_example) = keys cleaned_example
  /\ forall k,
       dict_get k (filter_tokens cleaned_example)
       = option_map filter_tokens_line (dict_get k cleaned_example).
Proof.
  apply filter_tokens_lookup.
  unfold well_formed. simpl.
  repeat constructor; simpl; intros H;
    repeat (destruct H as [H | H]; [discriminate H |]); exact H.
Defined.



(** *** What [strip] removes *)

Lemma lstrip_split (s : string) :
  exists a, s = (a ++ lstrip s)%string /\ all_space a = true
            /\ first_is (fun c => negb (is_space c)) (lstrip s) = true.
Proof.
  induction s as [| c s (a & Hs & Ha & Hf)]; simpl.
  - exists EmptyString. repeat split.
  - destruct (is_space c) eqn:Hc.
    + exists (String c a). simpl. rewrite Hc, Ha. repeat split; [| assumption].
      f_equal. assumption.
    + exists EmptyString. simpl. rewrite Hc. repeat split.
Qed.

Lemma rstrip_cons (c : ascii) (s : string) :
  rstrip (String c s)
  = if all_space (String c s) then EmptyString else String c (rstrip s).
Proof. reflexivity. Qed.

Lemma all_space_rstrip (s : string) : all_space (rstrip s) = all_space s.
Proof.
  induction s as [| c s IH]; [reflexivity |].
  rewrite rstrip_cons. destruct (all_space (String c s)) eqn:H.
  - reflexivity.
  - simpl in *. rewrite IH. assumption.
Qed.

Lemma rstrip_split (s : string) :
  exists b, s = (rstrip s ++ b)%string /\ all_space b = true.
Proof.
  induction s as [| c s (b & Hs & Hb)].
  - exists EmptyString. split; reflexivity.
  - rewrite rstrip_cons. destruct (all_space (String c s)) eqn:H.
    + exists (String c s). split; [reflexivity | assumption].
    + exists b. split; [simpl; f_equal; assumption | assumption].
Qed.

Lemma rstrip_idempotent (s : string) : rstrip (rstrip s) = rstrip s.
Proof.
  induction s as [| c s IH]; [reflexivity |].
  rewrite (rstrip_cons c s). destruct (all_space (String c s)) eqn:H.
  - reflexivity.
  - rewrite rstrip_cons.
    replace (all_space (String c (rstrip s))) with false.
    + rewrite IH. reflexivity.
    + simpl in *. rewrite all_space_rstrip. symmetry. assumption.
Qed.

Lemma lstrip_first (s : string) :
  first_is (fun c => negb (is_space c)) s = true -> lstrip s = s.
Proof.
  destruct s as [| c s]; simpl; [reflexivity |].
  intros H. apply negb_true_iff in H. rewrite H. reflexivity.
Qed.

Lemma rstrip_first (s : string) :
  first_is (fun c => negb (is_space c)) s = true ->
  first_is (fun c => negb (is_space c)) (rstrip s) = true.
Proof.
  destruct s as [| c s]; [reflexivity |].
  rewrite rstrip_cons. destruct (all_space (String c s)); auto.
Qed.

(** [strip] takes blanks off both ends and nothing else, and what it
    returns has no blank at either end. *)
Lemma strip_split (s : string) :
  exists a b,
    s = (a ++ strip s ++ b)%string /\ all_space a = true /\ all_space b = true
    /\ lstrip (strip s) = strip s /\ rstrip (strip s) = strip s.
Proof.
  destruct (lstrip_split s) as (a & Hs & Ha & Hf).
  destruct (rstrip_split (lstrip s)) as (b & Hl & Hb).
  exists a, b. unfold strip. split; [| split; [assumption | split; [assumption |]]].
  - rewrite <- Hl. assumption.
  - split; [apply lstrip_first, rstrip_first; assumption | apply rstrip_idempotent].
Qed.

Lemma strip_idempotent (s : string) : strip (strip s) = strip s.
Proof.
  destruct (strip_split s) as (_ & _ & _ & _ & _ & Hl & Hr).
  unfold strip at 1. rewrite Hl. exact Hr.
Qed.

(** X6. The date pass takes the blanks off both ends of every text token
    and nothing else, leaves the numbers alone, keeps the length of the
    line, and raises only for [None]; a second run changes nothing. *)
Theorem clean_date_strips (l : line) :
  (no_none l ->
   exists l',
     clean_date l = Ok l'
     /\ clean_date l' = Ok l'
     /\ Forall2 (fun t t' =>
                   match t with
                   | PyStr s =>
                       exists a b s',
                         t' = PyStr s' /\ s = (a ++ s' ++ b)%string
                         /\ all_space a = true /\ all_space b = true
                         /\ lstrip s' = s' /\ rstrip s' = s'
                   | _ => t' = t
                   end) l l')
  /\ (In PyNone l -> clean_date l = Raise AttributeError).
Proof.
  unfold clean_date, no_none. induction l as [| t l [IHok IHerr]]; cbn [mapM].
  - split; [intros _ | intros []].
    exists []. repeat split. constructor.
  - destruct t as [| s | n]; cbn [clean_date_token bind].
    + split; [intros H; exfalso; apply H; left; reflexivity | reflexivity].
    + split.
      * intros H. destruct IHok as (l' & Hl' & Hl'' & Hall);
          [intros Hin; apply H; right; assumption |].
        rewrite Hl'. cbn [bind]. exists (PyStr (strip s) :: l').
        split; [reflexivity |]. split.
        -- cbn [mapM clean_date_token bind]. rewrite Hl'', strip_idempotent.
           reflexivity.
        -- constructor; [| assumption].
           destruct (strip_split s) as (a & b & Hs & Ha & Hb & Hl & Hr).
           exists a, b, (strip s). repeat split; assumption.
      * intros [Heq | Hin]; [discriminate |]. rewrite (IHerr Hin). reflexivity.
    + split.
      * intros H. destruct IHok as (l' & Hl' & Hl'' & Hall);
          [intros Hin; apply H; right; assumption |].
        rewrite Hl'. cbn [bind]. exists (PyNum n :: l').
        split; [reflexivity |]. split.
        -- cbn [mapM clean_date_token bind]. rewrite Hl''. reflexivity.
        -- constructor; [reflexivity | assumption].
      * intros [Heq | Hin]; [discriminate |]. rewrite (IHerr Hin). reflexivity.
Qed.

(** *** The stray plus sign *)

Lemma rstrip_empty (s : string) : rstrip s = EmptyString -> all_space s = true.
Proof.
  destruct s as [| c s]; [reflexivity |].
  rewrite rstrip_cons. destruct (all_space (String c s)); [reflexivity |].
  discriminate.
Qed.

(** [useless_tokens_pattern] matches the strings that are a plus sign
    once stripped. *)
Lemma useless_tokens_pattern_strip (s : string) :
  useless_tokens_pattern s = String.eqb (strip s) "+".
Proof.
  unfold useless_tokens_pattern, strip.
  destruct (lstrip_split s) as (_ & _ & _ & Hf).
  destruct (lstrip s) as [| c r]; [reflexivity |].
  cbn [first_is] in Hf. apply negb_true_iff in Hf.
  rewrite (rstrip_not_space c r Hf).
  destruct (Ascii.eqb_spec c "+") as [-> | Hne]; cbn [andb].
  - destruct (all_space r) eqn:Hr.
    + rewrite (rstrip_all_space r Hr). reflexivity.
    + symmetry. apply String.eqb_neq. intros [= H].
      apply rstrip_empty in H. congruence.
  - symmetry. apply String.eqb_neq. intros [= H _]. contradiction.
Qed.

(** X7. The pass against useless tokens returns the line without the text
    tokens that are a plus sign once stripped, everything else in order;
    it raises [TypeError] exactly when the line holds [None]; a second run
    changes nothing. *)
Theorem remove_useless_tokens_drops_plus (l : line) :
  (no_none l ->
   remove_useless_tokens l = Ok (filter (fun t => negb (is_plus t)) l)
   /\ remove_useless_tokens (filter (fun t => negb (is_plus t)) l)
      = Ok (filter (fun t => negb (is_plus t)) l))
  /\ (In PyNone l -> remove_useless_tokens l = Raise TypeError).
Proof.
  unfold no_none. induction l as [| t l [IHok IHerr]].
  - split; [intros _; split; reflexivity | intros []].
  - split.
    + intros H.
      destruct IHok as [Hl Hl']; [intros Hin; apply H; right; assumption |].
      destruct t as [| s | n].
      * exfalso. apply H. left; reflexivity.
      * cbn [remove_useless_tokens filter is_plus]. rewrite Hl. cbn [bind].
        rewrite <- useless_tokens_pattern_strip.
        destruct (useless_tokens_pattern s) eqn:Hs; cbn [negb].
        -- split; [reflexivity | assumption].
        -- split; [reflexivity |].
           cbn [remove_useless_tokens]. rewrite Hl', Hs. reflexivity.
      * cbn [remove_useless_tokens filter is_plus negb]. rewrite Hl. cbn [bind].
        split; [reflexivity |].
        cbn [remove_useless_tokens]. rewrite Hl'. reflexivity.
    + intros [-> | Hin]; [reflexivity |].
      specialize (IHerr Hin). destruct t as [| s | n];
        cbn [remove_useless_tokens]; try rewrite IHerr; reflexivity.
Qed.

(** *** The words of a text *)

Lemma all_chars_append (p : ascii -> bool) (x y : string) :
  all_chars p (x ++ y) = all_chars p x && all_chars p y.
Proof.
  induction x as [| c x IH]; simpl; [reflexivity |].
  rewrite IH, andb_assoc. reflexivity.
Qed.

Lemma is_empty_append (x y : string) :
  is_empty (x ++ y) = is_empty x && is_empty y.
Proof. destruct x; reflexivity. Qed.

Lemma word_runs_runs (s : string) :
  forall cur,
    all_chars is_word cur = true -> Forall is_run (word_runs cur s).
Proof.
  induction s as [| c s IH]; intros cur Hcur; simpl.
  - destruct (is_empty cur) eqn:He; constructor; [split; assumption | constructor].
  - destruct (is_word c) eqn:Hc.
    + apply IH. rewrite all_chars_append, Hcur. simpl. rewrite Hc. reflexivity.
    + destruct (is_empty cur) eqn:He; [apply IH; reflexivity |].
      constructor; [split; assumption | apply IH; reflexivity].
Qed.

Lemma word_runs_word (w rest : string) :
  all_chars is_word w = true ->
  forall cur, word_runs cur (w ++ rest) = word_runs (cur ++ w) rest.
Proof.
  induction w as [| c w IH]; intros Hw cur.
  - simpl. rewrite append_nil_r. reflexivity.
  - simpl in Hw. apply andb_true_iff in Hw. destruct Hw as [Hc Hw].
    simpl. rewrite Hc, IH by assumption. rewrite append_assoc. reflexivity.
Qed.

(** The words of words put together with spaces are those words. *)
Lemma tokenize_join (ws : list string) :
  Forall is_run ws -> tokenize (join " " ws) = ws.
Proof.
  unfold tokenize. induction 1 as [| w ws [Hw Hne] Hws IH]; [reflexivity |].
  destruct ws as [| w2 ws].
  - cbn [join]. rewrite <- (append_nil_r w) at 1.
    rewrite (word_runs_word w EmptyString Hw). cbn [String.append word_runs].
    rewrite Hne. reflexivity.
  - change (join " " (w :: w2 :: ws))
      with (w ++ String " " (join " " (w2 :: ws)))%string.
    rewrite (word_runs_word w _ Hw). cbn [String.append word_runs].
    replace (is_word " ") with false by reflexivity.
    rewrite Hne, IH. reflexivity.
Qed.

Lemma join_chars (ws : list string) :
  Forall is_run ws -> all_chars word_or_space (join " " ws) = true.
Proof.
  assert (Hrun : forall w, all_chars is_word w = true ->
                           all_chars word_or_space w = true).
  { induction w as [| c w IHw]; simpl; [reflexivity |].
    intros H. apply andb_true_iff in H. destruct H as [Hc Hw].
    unfold word_or_space at 1. rewrite Hc, IHw by assumption. reflexivity. }
  induction 1 as [| w ws [Hw Hne] Hws IH]; [reflexivity |].
  destruct ws as [| w2 ws].
  - cbn [join]. apply Hrun. assumption.
  - change (join " " (w :: w2 :: ws))
      with (w ++ String " " (join " " (w2 :: ws)))%string.
    rewrite all_chars_append, (Hrun w Hw). cbn [all_chars andb].
    rewrite IH. reflexivity.
Qed.

(** A date has a point, which is neither a word character nor a space. *)
Lemma date_pattern_not_words (s : string) :
  all_chars word_or_space s = true -> date_pattern s = false.
Proof.
  destruct s as [| a [| b [| p [| c [| d r]]]]]; try reflexivity.
  cbn [all_chars date_pattern]. intros H.
  destruct (Ascii.eqb_spec p ".") as [-> | Hne].
  - rewrite !andb_true_iff in H. destruct H as (_ & _ & H & _). discriminate H.
  - rewrite !andb_false_r. reflexivity.
Qed.

Lemma clean_text_token_normal (s : string) :
  exists s',
    clean_text_token (PyStr s) = Ok (PyStr s')
    /\ normal_text s'
    /\ clean_text_token (PyStr s') = Ok (PyStr s').
Proof.
  unfold clean_text_token, normal_text. destruct (date_pattern s) eqn:Hd.
  - exists s. rewrite Hd. split; [reflexivity |]. split; [left |]; reflexivity.
  - pose proof (word_runs_runs s EmptyString eq_refl) as Hruns.
    fold (tokenize s) in Hruns.
    exists (join " " (tokenize s)).
    rewrite (date_pattern_not_words _ (join_chars _ Hruns)).
    rewrite (tokenize_join _ Hruns).
    split; [reflexivity |]. split; [| reflexivity].
    right. split; [apply join_chars; assumption | reflexivity].
Qed.

(** X8. The text pass leaves every text token a date, kept as it was, or
    words with one space between them and nothing else; the numbers stay;
    a second run changes nothing. *)
Theorem clean_text_normal_form (l l' : line) :
  clean_text l = Ok l' ->
  clean_text l' = Ok l'
  /\ numbers l' = numbers l
  /\ Forall (fun t => match t with
                      | PyStr s => normal_text s
                      | PyNum _ => True
                      | PyNone => False
                      end) l'.
Proof.
  unfold clean_text. revert l'.
  induction l as [| t l IH]; intros l' H; cbn [mapM] in H.
  - injection H as <-. repeat split. constructor.
  - destruct t as [| s | n]; [discriminate | |].
    + destruct (clean_text_token_normal s) as (s' & Hs & Hn & Hs').
      rewrite Hs in H. cbn [bind] in H.
      destruct (mapM clean_text_token l) as [r |]; [| discriminate].
      injection H as <-. destruct (IH r eq_refl) as (Hr & Hnum & Hall).
      cbn [mapM]. rewrite Hs', Hr. cbn [bind numbers].
      split; [reflexivity |]. split; [assumption |].
      constructor; assumption.
    + cbn [clean_text_token bind] in H.
      destruct (mapM clean_text_token l) as [r |]; [| discriminate].
      injection H as <-. destruct (IH r eq_refl) as (Hr & Hnum & Hall).
      cbn [mapM clean_text_token bind]. rewrite Hr. cbn [bind numbers].
      split; [reflexivity |]. split; [congruence |].
      constructor; [exact I | assumption].
Qed.

Lemma clean_text_normal_form_witness :
  clean_text [PyStr "Gjensidige Forsikring D"; PyStr "03.10"]
  = Ok [PyStr "Gjensidige Forsikring D"; PyStr "03.10"]
  /\ numbers [PyStr "Gjensidige Forsikring D"; PyStr "03.10"]
     = numbers [PyStr "Gjensidige Forsikring, D"; PyStr "03.10"]
  /\ Forall (fun t => match t with
                      | PyStr s => normal_text s
                      | PyNum _ => True
                      | PyNone => False
                      end)
            [PyStr "Gjensidige Forsikring D"; PyStr "03.10"].
Proof.
  apply (clean_text_normal_form
           [PyStr "Gjensidige Forsikring, D"; PyStr "03.10"]).
  reflexivity.
Defined.

(** *** Numbers written without points *)

Lemma take_decimals_none (rest : string) :
  first_is (fun c => negb (Ascii.eqb c ",")) rest = true ->
  take_decimals rest = (EmptyString, rest).
Proof.
  destruct rest as [| p [| a [| b rest]]]; try reflexivity.
  simpl. intros H. apply negb_true_iff in H. rewrite H. reflexivity.
Qed.

Lemma number_pattern_four_digits (a b c d : ascii) (rest : string) :
  is_digit a = true -> is_digit b = true -> is_digit c = true ->
  is_digit d = true ->
  number_pattern (String a (String b (String c (String d rest)))) = None.
Proof.
  intros Ha Hb Hc Hd. unfold number_pattern.
  cbn [take_digits]. rewrite Ha, Hb, Hc. cbn [is_empty].
  rewrite take_groups_none
    by (cbn [first_is]; rewrite (digit_not_char d "." Hd eq_refl); reflexivity).
  rewrite take_decimals_none
    by (cbn [first_is]; rewrite (digit_not_char d "," Hd eq_refl); reflexivity).
  cbn [take_space].
  rewrite (digit_not_space d Hd). cbn [take_sign].
  rewrite (digit_not_char d "+" Hd eq_refl), (digit_not_char d "-" Hd eq_refl).
  cbn [orb at_end]. destruct rest; [| reflexivity].
  rewrite (digit_not_char d newline Hd eq_refl). reflexivity.
Qed.

(** X9. A fragment that starts, once stripped, with four digits in a row
    is no number for the pattern, whatever follows: the number pass
    returns it as the text it was.  So 1234,56 stays text where 1.234,56
    is parsed. *)
Theorem four_digits_stay_text (s : string) (a b c d : ascii) (rest : string) :
  is_digit a = true -> is_digit b = true -> is_digit c = true ->
  is_digit d = true ->
  strip s = String a (String b (String c (String d rest))) ->
  number_pattern (strip s) = None
  /\ parse_numbers [PyStr s] = Ok [PyStr s].
Proof.
  intros Ha Hb Hc Hd Hs.
  assert (Hn : number_pattern (strip s) = None)
    by (rewrite Hs; apply number_pattern_four_digits; assumption).
  split; [assumption |].
  unfold parse_numbers. cbn [mapM parse_number]. rewrite Hn. reflexivity.
Qed.

Lemma four_digits_stay_text_witness :
  number_pattern (strip "1234,56 ") = None
  /\ parse_numbers [PyStr "1234,56 "] = Ok [PyStr "1234,56 "].
Proof.
  apply (four_digits_stay_text "1234,56 " "1" "2" "3" "4" ",56"); reflexivity.
Defined.

(** *** The record builder *)

Lemma last_default {A : Type} (xs : list A) (d d' : A) :
  xs <> [] -> last xs d = last xs d'.
Proof.
  induction xs as [| x xs IH]; [contradiction |]. intros _.
  destruct xs as [| y xs]; [reflexivity |].
  change (last (y :: xs) d = last (y :: xs) d'). apply IH. discriminate.
Qed.

Lemma latest_last {A : Type} (xs : list A) :
  forall init, latest init xs = last (map Some xs) init.
Proof.
  unfold latest. induction xs as [| x xs IH]; intros init; [reflexivity |].
  cbn [fold_left map]. rewrite IH.
  destruct xs as [| y xs]; [reflexivity |].
  change (last (map Some (y :: xs)) (Some x) = last (map Some (y :: xs)) init).
  apply last_default. discriminate.
Qed.

(** X10. The record builder raises nothing on a line without [None], and
    the last token of each kind wins: the amount is the last number, the
    date the last text token the date pattern matches, the text the last
    one it does not match; a kind with no token leaves its field out.  A
    line that holds [None] makes it raise [TypeError]. *)
Theorem transform_line_last_wins (l : line) :
  (no_none l ->
   exists r,
     transform_line l = Ok r
     /\ amount r = last (map Some (numbers l)) None
     /\ date r = last (map Some (filter date_pattern (strings l))) None
     /\ text r = last (map Some (filter (fun s => negb (date_pattern s))
                                        (strings l))) None)
  /\ (In PyNone l -> transform_line l = Raise TypeError).
Proof.
  split.
  - intros Hn. destruct (transform_loop_total l Hn empty_record) as [r Hr].
    exists r. split; [exact Hr |].
    apply transform_loop_fields in Hr. cbn [amount date text empty_record] in Hr.
    rewrite <- !latest_last. exact Hr.
  - unfold transform_line. generalize empty_record.
    induction l as [| t l IH]; intros json Hin; [destruct Hin |].
    destruct t as [| s | n]; cbn [transform_loop]; [reflexivity | |].
    + destruct Hin as [Heq | Hin]; [discriminate |].
      destruct (date_pattern s); apply IH; assumption.
    + destruct Hin as [Heq | Hin]; [discriminate |]. apply IH; assumption.
Qed.

(** *** The shape of cleaned lines and of records *)

Lemma date_pattern_stripped (s : string) :
  date_pattern s = true -> strip s = s -> is_date s.
Proof.
  destruct s as [| a [| b [| p [| c [| d r]]]]]; try discriminate.
  cbn [date_pattern]. intros H Hs.
  rewrite !andb_true_iff in H. destruct H as (((((Ha & Hb) & Hp) & Hc) & Hd) & Hr).
  apply Ascii.eqb_eq in Hp. subst p.
  exists a, b, c, d. repeat (split; [assumption |]).
  rewrite <- Hs at 1. apply (strip_date_shaped a b c d r); assumption.
Qed.

Lemma is_date_date_pattern (s : string) : is_date s -> date_pattern s = true.
Proof.
  intros (a & b & c & d & Ha & Hb & Hc & Hd & ->).
  unfold date_shaped, date_pattern. rewrite Ha, Hb, Hc, Hd. reflexivity.
Qed.

Lemma is_words_date_pattern (s : string) : is_words s -> date_pattern s = false.
Proof. intros [H _]. apply date_pattern_not_words. assumption. Qed.

Lemma mapM_Forall {A B : Type} (f : A -> result B) (P : A -> Prop) (Q : B -> Prop) :
  (forall x y, P x -> f x = Ok y -> Q y) ->
  forall xs ys, Forall P xs -> mapM f xs = Ok ys -> Forall Q ys.
Proof.
  intros Hf xs ys HP H. apply mapM_Ok_Forall2 in H.
  induction H as [| x y xs ys Hxy _ IH]; constructor.
  - inversion HP; subst. eapply Hf; eassumption.
  - apply IH. inversion HP; assumption.
Qed.

Lemma remove_useless_tokens_In (l : line) :
  forall l' t, remove_useless_tokens l = Ok l' -> In t l' -> In t l.
Proof.
  induction l as [| u l IH]; intros l' t H Hin; simpl in H.
  - injection H as <-. destruct Hin.
  - destruct u as [| s | n]; [discriminate | |];
      destruct (remove_useless_tokens l) as [rest |]; simpl in H;
      try discriminate; injection H as <-.
    + destruct (useless_tokens_pattern s).
      * right. eapply IH; [reflexivity | assumption].
      * destruct Hin as [<- | Hin]; [left; reflexivity |].
        right. eapply IH; [reflexivity | assumption].
    + destruct Hin as [<- | Hin]; [left; reflexivity |].
      right. eapply IH; [reflexivity | assumption].
Qed.

(** The four passes leave numbers, dates and words. *)
Lemma clean_line_tidy (l l' : line) : clean_line l = Ok l' -> Forall tidy l'.
Proof.
  unfold clean_line. intros H.
  destruct (parse_numbers l) as [l1 |]; cbn [bind] in H; [| discriminate].
  destruct (clean_date l1) as [l2 |] eqn:H2; cbn [bind] in H; [| discriminate].
  destruct (remove_useless_tokens l2) as [l3 |] eqn:H3; cbn [bind] in H;
    [| discriminate].
  assert (S2 : Forall stripped l2).
  { apply (mapM_Forall clean_date_token (fun _ => True) stripped) with (xs := l1);
      [| apply Forall_forall; trivial | exact H2].
    intros [| s | n] y _ Hy; simpl in Hy; try discriminate;
      injection Hy as <-; simpl; [apply strip_idempotent | exact I]. }
  assert (S3 : Forall stripped l3).
  { apply Forall_forall. intros t Ht. rewrite Forall_forall in S2.
    apply S2. eapply remove_useless_tokens_In; eassumption. }
  apply (mapM_Forall clean_text_token stripped tidy) with (xs := l3);
    [| exact S3 | exact H].
  intros [| s | n] y Hs Hy; simpl in Hy, Hs; try contradiction.
  - destruct (date_pattern s) eqn:Hd; injection Hy as <-; simpl.
    + left. apply date_pattern_stripped; assumption.
    + right. pose proof (word_runs_runs s EmptyString eq_refl) as Hruns.
      fold (tokenize s) in Hruns.
      split; [apply join_chars; assumption |].
      rewrite (tokenize_join _ Hruns). reflexivity.
  - injection Hy as <-. exact I.
Qed.

Lemma clean_lines_values (lines cleaned : dict line) :
  well_formed lines -> clean_lines lines = Ok cleaned ->
  keys cleaned = keys lines
  /\ Forall2 (fun l l' => clean_line l = Ok l') (values lines) (values cleaned).
Proof.
  intros Hwf H. unfold clean_lines in H.
  pose proof (clean_lines_foldM lines [] Hwf) as Hf. cbn [app] in Hf.
  rewrite Hf in H. clear Hf.
  destruct (mapM _ lines) as [suf |] eqn:Hm; cbn [bind app] in H; [| discriminate].
  injection H as <-. apply mapM_Ok_Forall2 in Hm.
  induction Hm as [| [k l] [k' l'] lines suf Hkl _ IH]; cbn [keys values map].
  - split; constructor.
  - cbn [fst snd] in Hkl. destruct (clean_line l) as [l'' |] eqn:Hl;
      cbn [bind] in Hkl; [| discriminate].
    injection Hkl as <- <-. inversion Hwf; subst.
    destruct IH as [Hk Hv]; [assumption |]. cbn [fst snd].
    split; [f_equal; exact Hk | constructor; assumption].
Qed.

(** The record of a filtered tidy line. *)
Lemma tidy_line_record (l : line) (r : record) :
  Forall tidy l -> transform_line (filter_tokens_line l) = Ok r ->
  normal_record r.
Proof.
  intros Htidy Hr.
  assert (Htok : forall s, In (PyStr s) (filter_tokens_line l) ->
                           is_date s \/ is_words s).
  { intros s Hin. apply filter_tokens_line_In in Hin; [| reflexivity].
    rewrite Forall_forall in Htidy. apply (Htidy (PyStr s) Hin). }
  split; [| split].
  - exists (fst (filter_tokens_loop sentinel [] l)).
    split; [apply transform_filtered_amount; assumption |].
    rewrite filter_tokens_loop_fst.
    destruct (smallest_of_le_sentinel (numbers l)) as [H | H];
      unfold smallest_of in H; [rewrite H; apply lt_irrefl | apply lt_asym, H].
  - intros s Hs. apply transform_loop_fields in Hr. destruct Hr as (_ & Hd & _).
    cbn [date empty_record] in Hd. rewrite Hs in Hd. symmetry in Hd.
    apply latest_In, filter_In in Hd. destruct Hd as [Hin Hdate].
    apply strings_In in Hin. destruct (Htok s Hin) as [H | H]; [assumption |].
    apply is_words_date_pattern in H. congruence.
  - intros s Hs. apply transform_loop_fields in Hr. destruct Hr as (_ & _ & Ht).
    cbn [text empty_record] in Ht. rewrite Hs in Ht. symmetry in Ht.
    apply latest_In, filter_In in Ht. destruct Ht as [Hin Hdate].
    apply negb_true_iff in Hdate.
    apply strings_In in Hin. destruct (Htok s Hin) as [H | H]; [| assumption].
    apply is_date_date_pattern in H. congruence.
Qed.

(** *** Tokens the pipeline cannot take *)

Lemma parse_numbers_not_text (l : line) :
  forallb is_str l = false -> parse_numbers l = Raise AttributeError.
Proof.
  unfold parse_numbers. induction l as [| t l IH]; cbn [mapM forallb]; intros H.
  - discriminate.
  - destruct t as [| s | n]; try reflexivity.
    destruct (parse_number_total s) as [t' Ht']. rewrite Ht'. cbn [bind].
    cbn [is_str andb] in H. rewrite (IH H). reflexivity.
Qed.

Lemma mapM_raises {A B : Type} (f : A -> result B) (e : exn) (xs : list A) :
  (forall x, In x xs -> (exists y, f x = Ok y) \/ f x = Raise e) ->
  (exists x, In x xs /\ f x = Raise e) ->
  mapM f xs = Raise e.
Proof.
  induction xs as [| x xs IH]; intros Hall (x0 & Hin & Hx0); [destruct Hin |].
  cbn [mapM]. destruct (Hall x (or_introl eq_refl)) as [[y Hy] | Hx].
  - rewrite Hy. cbn [bind]. rewrite IH; [reflexivity | |].
    + intros z Hz. apply Hall. right; assumption.
    + destruct Hin as [-> | Hin]; [congruence |]. exists x0. split; assumption.
  - rewrite Hx. reflexivity.
Qed.

(** A token that is not text, anywhere in the dictionary, makes the
    pipeline raise [AttributeError]. *)
Lemma process_lines_needs_text (lines : dict line) :
  well_formed lines ->
  (exists l, In l (values lines) /\ forallb is_str l = false) ->
  process_lines lines = Raise AttributeError.
Proof.
  intros Hwf (l & Hl & Hnot).
  unfold process_lines, clean_lines.
  pose proof (clean_lines_foldM lines [] Hwf) as Hf. cbn [app] in Hf.
  rewrite Hf. clear Hf.
  rewrite (mapM_raises _ AttributeError); [reflexivity | |].
  - intros [k l0] _. cbn [fst snd].
    destruct (forallb is_str l0) eqn:H0.
    + left. destruct (clean_line_text l0 H0) as (l' & Hl' & _).
      rewrite Hl'. eexists. reflexivity.
    + right. unfold clean_line. rewrite (parse_numbers_not_text l0 H0).
      reflexivity.
  - unfold values in Hl. apply in_map_iff in Hl. destruct Hl as ([k l0] & <- & Hin).
    exists (k, l0). split; [assumption |]. cbn [fst snd] in *.
    unfold clean_line. rewrite (parse_numbers_not_text l0 Hnot). reflexivity.
Qed.

(** *** What the line grouper returns *)

Lemma text_element_text (l : element) (x : pyval) :
  text_element l = Ok x -> is_number x = false.
Proof.
  unfold text_element. intros H.
  destruct (text_of l) as [[| c s] |];
    try (injection H as <-; reflexivity);
    destruct (find "LTTextBoxHorizontal" l) as [box |]; try discriminate;
    injection H as <-; destruct (text_of box); reflexivity.
Qed.

Lemma total_dict_set_new (k : string) (v : line) (d : dict line) :
  dict_get k d = None -> total (dict_set k v d) = total d + List.length v.
Proof.
  unfold total, values. induction d as [| [k' w] d IH]; intros H.
  - simpl. rewrite app_nil_r. reflexivity.
  - cbn [dict_get dict_set] in *. destruct (String.eqb k' k); [discriminate |].
    cbn [map snd List.concat]. rewrite !length_app, IH by assumption. unfold line in *. lia.
Qed.

Lemma total_dict_set_old (k : string) (v old : line) (d : dict line) :
  dict_get k d = Some old ->
  total (dict_set k v d) + List.length old = total d + List.length v.
Proof.
  unfold total, values. induction d as [| [k' w] d IH]; intros H.
  - discriminate.
  - cbn [dict_get dict_set] in *. destruct (String.eqb k' k).
    + injection H as ->. cbn [map snd List.concat]. rewrite !length_app.
      unfold line in *. lia.
    + cbn [map snd List.concat]. rewrite !length_app. specialize (IH H).
      unfold line in *. lia.
Qed.

Lemma add_fragment_total (k : string) (x : pyval) (d : dict line) :
  total (add_fragment k x d) = S (total d).
Proof.
  unfold add_fragment. destruct (dict_get k d) as [old |] eqn:H.
  - pose proof (total_dict_set_old k (old ++ [x]) old d H) as Ht.
    rewrite length_app in Ht. change (List.length [x]) with 1 in Ht.
    unfold line in *. lia.
  - pose proof (total_dict_set_new k [x] d H) as Ht.
    change (List.length [x]) with 1 in Ht. unfold line in *. lia.
Qed.

Lemma add_fragment_fragments (k : string) (x : pyval) (d : dict line) :
  is_number x = false ->
  Forall fragments (values d) -> Forall fragments (values (add_fragment k x d)).
Proof.
  intros Hx Hd. apply Forall_forall. intros l Hl.
  rewrite Forall_forall in Hd. unfold add_fragment in Hl.
  destruct (dict_get k d) as [old |] eqn:Hk;
    apply dict_set_values in Hl; destruct Hl as [-> | Hl]; auto.
  - apply dict_get_In in Hk. apply (in_map snd) in Hk.
    destruct (Hd old Hk) as [_ Hn]. split.
    + intros H. apply app_eq_nil in H. destruct H as [_ H]. discriminate.
    + rewrite numbers_app, Hn. destruct x; [reflexivity | reflexivity | discriminate].
  - split; [discriminate |]. destruct x; [reflexivity | reflexivity | discriminate].
Qed.

Section GrouperInvariant.

Variable py_int : option string -> result Z.
Variable py_float_attr : option string -> result float.
Variable str_int : Z -> string.
Variable str_float : float -> string.

Lemma extract_line_invariant (page_num : Z) (l : element) (n : nat)
    (d d' : dict line) :
  grouper_invariant n d ->
  extract_line py_float_attr str_int str_float page_num d l = Ok d' ->
  grouper_invariant (S n) d'.
Proof.
  intros (Hwf & Hfr & Ht) H. unfold extract_line in H.
  destruct (py_float_attr (get "y0" l)) as [y0 |]; cbn [bind] in H;
    [| discriminate].
  destruct (text_element l) as [x |] eqn:Hx; cbn [bind] in H; [| discriminate].
  injection H as <-. split; [apply add_fragment_well_formed; assumption |].
  split; [apply add_fragment_fragments;
          [apply (text_element_text l); assumption | assumption] |].
  rewrite add_fragment_total, Ht. reflexivity.
Qed.

Lemma extract_page_lines_invariant (page_num : Z) (ls : list element) :
  forall n d d',
    grouper_invariant n d ->
    foldM (extract_line py_float_attr str_int str_float page_num) d ls = Ok d' ->
    grouper_invariant (n + List.length ls) d'.
Proof.
  induction ls as [| l ls IH]; intros n d d' Hinv H; cbn [foldM] in H.
  - injection H as <-. rewrite Nat.add_0_r. assumption.
  - destruct (extract_line _ _ _ page_num d l) as [d1 |] eqn:H1;
      cbn [bind] in H; [| discriminate].
    cbn [List.length]. rewrite <- Nat.add_succ_comm.
    apply (IH (S n) d1 d'); [| assumption].
    apply (extract_line_invariant page_num l n d d1); assumption.
Qed.

Lemma extract_pages_invariant (pages : list element) :
  forall n d d',
    grouper_invariant n d ->
    foldM (extract_page py_int py_float_attr str_int str_float) d pages = Ok d' ->
    grouper_invariant
      (n + List.length
             (flat_map (fun page =>
                          map (pair page) (findall "LTTextLineHorizontal" page))
                       pages)) d'.
Proof.
  induction pages as [| page pages IH]; intros n d d' Hinv H; cbn [foldM] in H.
  - injection H as <-. simpl. rewrite Nat.add_0_r. assumption.
  - destruct (extract_page _ _ _ _ d page) as [d1 |] eqn:H1;
      cbn [bind] in H; [| discriminate].
    unfold extract_page in H1.
    destruct (py_int (get "pageid" page)) as [page_num |]; cbn [bind] in H1;
      [| discriminate].
    cbn [flat_map]. rewrite length_app, length_map, Nat.add_assoc.
    apply (IH _ d1 d'); [| assumption].
    apply (extract_page_lines_invariant page_num _ n d d1); assumption.
Qed.

(** X11. Whatever the tree, a dictionary the line grouper returns holds
    every key once, no empty line and no number, and as many fragments as
    line elements were visited: none is lost, none is made up. *)
Theorem extract_lines_invariants (root : element) (lines : dict line) :
  extract_lines py_int py_float_attr str_int str_float root = Ok lines ->
  well_formed lines
  /\ (forall l, In l (values lines) -> l <> [] /\ numbers l = [])
  /\ List.length (List.concat (values lines)) = List.length (visits root).
Proof.
  intros H.
  destruct (extract_pages_invariant (findall "LTPage" root) 0 [] lines)
    as (Hwf & Hfr & Ht); [| exact H |].
  { split; [constructor | split; [constructor | reflexivity]]. }
  split; [assumption |]. split; [| exact Ht].
  intros l Hl. rewrite Forall_forall in Hfr. apply (Hfr l Hl).
Qed.

End GrouperInvariant.

Lemma extract_lines_invariants_witness :
  let lines := [("P1L8241006775948542p-44",
                 [PyStr "494,42 - "; PyStr "03.10 "]);
                ("P1L7742321078147482p-44", [PyStr "Netto "])] in
  well_formed lines
  /\ (forall l, In l (values lines) -> l <> [] /\ numbers l = [])
  /\ List.length (List.concat (values lines)) = List.length (visits example_tree).
Proof.
  apply (extract_lines_invariants example_int example_float example_str_int
           example_str_float example_tree).
  vm_compute. reflexivity.
Defined.

(** *** The document as a whole *)

Lemma fragments_text (l : line) :
  numbers l = [] -> ~ In PyNone l -> forallb is_str l = true.
Proof.
  induction l as [| [| s | n] l IH]; simpl; intros Hn Hnone.
  - reflexivity.
  - exfalso. apply Hnone. left; reflexivity.
  - apply IH; [assumption | intros H; apply Hnone; right; assumption].
  - discriminate.
Qed.

Lemma none_not_text (l : line) : In PyNone l -> forallb is_str l = false.
Proof.
  induction l as [| t l IH]; simpl; intros H; [destruct H |].
  destruct H as [-> | H]; [reflexivity |].
  rewrite (IH H). apply andb_false_r.
Qed.

Lemma Forall2_filter {A B : Type} (R : A -> B -> Prop) (p : A -> bool)
    (q : B -> bool) (xs : list A) (ys : list B) :
  Forall2 R xs ys -> (forall x y, R x y -> p x = q y) ->
  Forall2 R (filter p xs) (filter q ys).
Proof.
  intros H Hpq. induction H as [| x y xs ys Hxy _ IH]; simpl; [constructor |].
  rewrite <- (Hpq x y Hxy). destruct (p x); [constructor |]; assumption.
Qed.

Lemma Forall2_compose {A B C : Type} (R : A -> B -> Prop) (S : B -> C -> Prop)
    (xs : list A) (ys : list B) (zs : list C) :
  Forall2 R xs ys -> Forall2 S ys zs ->
  Forall2 (fun x z => exists y, R x y /\ S y z) xs zs.
Proof.
  intros H. revert zs. induction H as [| x y xs ys Hxy _ IH]; intros zs Hs;
    inversion Hs; subst; constructor.
  - exists y. split; assumption.
  - apply IH. assumption.
Qed.

(** The number pass makes one number of each numeral. *)
Lemma parse_numbers_numerals (l : line) :
  forall l1,
    forallb is_str l = true -> parse_numbers l = Ok l1 ->
    List.length (numbers l1) = List.length (filter is_numeral l).
Proof.
  unfold parse_numbers.
  induction l as [| t l IH]; intros l1 Ht H; cbn [mapM] in H.
  - injection H as <-. reflexivity.
  - destruct t as [| s | n]; cbn [forallb is_str andb] in Ht;
      try discriminate Ht.
    cbn [filter is_numeral].
    destruct (number_pattern (strip s)) as [[np sign] |] eqn:Hp.
    + destruct (parse_number_match s np sign Hp) as (x & _ & _ & _ & Hx).
      rewrite Hx in H. cbn [bind] in H.
      destruct (mapM parse_number l) as [rest |]; cbn [bind] in H;
        [| discriminate H].
      injection H as <-. cbn [numbers List.length]. f_equal.
      apply IH; [assumption | reflexivity].
    + unfold parse_number at 1 in H. rewrite Hp in H. cbn [bind] in H.
      destruct (mapM parse_number l) as [rest |]; cbn [bind] in H;
        [| discriminate H].
      injection H as <-. cbn [numbers].
      apply IH; [assumption | reflexivity].
Qed.

(** The numbers of a cleaned line are those the number pass made. *)
Lemma clean_line_numbers (l l' : line) :
  clean_line l = Ok l' ->
  exists l1, parse_numbers l = Ok l1 /\ numbers l' = numbers l1.
Proof.
  unfold clean_line. intros H.
  destruct (parse_numbers l) as [l1 |]; cbn [bind] in H; [| discriminate H].
  destruct (clean_date l1) as [l2 |] eqn:H2; cbn [bind] in H; [| discriminate H].
  destruct (remove_useless_tokens l2) as [l3 |] eqn:H3; cbn [bind] in H;
    [| discriminate H].
  exists l1. split; [reflexivity |].
  rewrite (clean_text_numbers _ _ H), (remove_useless_tokens_numbers _ _ H3).
  apply clean_date_numbers. assumption.
Qed.

Lemma clean_line_payment (l l' : line) :
  forallb is_str l = true -> clean_line l = Ok l' ->
  is_payment l = survives l'.
Proof.
  intros Ht H. destruct (clean_line_numbers l l' H) as (l1 & H1 & Hn).
  unfold is_payment, survives.
  rewrite num_numbers_numbers, Hn, (parse_numbers_numerals l l1 Ht H1).
  reflexivity.
Qed.

(** On a dictionary of text fragments the pipeline raises nothing and
    returns one record for each payment, in order. *)
Lemma process_lines_payments (lines : dict line) :
  well_formed lines ->
  (forall l, In l (values lines) -> forallb is_str l = true) ->
  exists data,
    process_lines lines = Ok data
    /\ Forall2 (fun l r =>
                  normal_record r
                  /\ exists l1,
                       parse_numbers l = Ok l1
                       /\ amount r = Some (smallest_of (numbers l1)))
               (filter is_payment (values lines)) data.
Proof.
  intros Hwf Htext.
  destruct (clean_lines_text lines Hwf Htext) as (cleaned & Hc & Hk & Hnn).
  destruct (clean_lines_values lines cleaned Hwf Hc) as [_ Hvals].
  assert (Hwfc : well_formed cleaned) by (unfold well_formed; rewrite Hk; exact Hwf).
  destruct (cleaned_lines_records cleaned Hwfc Hnn) as (data & Hd & Hall).
  exists data. unfold process_lines. rewrite Hc. cbn [bind].
  split; [assumption |].
  assert (Hvals' : Forall2 (fun l l' => forallb is_str l = true
                                        /\ clean_line l = Ok l')
                           (values lines) (values cleaned)).
  { clear - Hvals Htext.
    induction Hvals as [| l l' ls ls' Hl _ IH]; constructor.
    - split; [apply Htext; left; reflexivity | assumption].
    - apply IH. intros l0 Hl0. apply Htext. right. assumption. }
  assert (Hf : Forall2 (fun l l' => forallb is_str l = true
                                    /\ clean_line l = Ok l')
                       (filter is_payment (values lines))
                       (filter survives (values cleaned))).
  { apply Forall2_filter; [assumption |].
    intros l l' [Ht Hl]. apply clean_line_payment; assumption. }
  pose proof (Forall2_compose _ _ _ _ _ Hf Hall) as Hcomp.
  eapply Forall2_impl; [| exact Hcomp].
  intros l r (l' & [Ht Hl] & Hr). split.
  - apply (tidy_line_record l' r); [| assumption].
    eapply clean_line_tidy. eassumption.
  - destruct (clean_line_numbers l l' Hl) as (l1 & H1 & Hn).
    exists l1. split; [assumption |].
    rewrite (transform_filtered_amount l' r Hr), filter_tokens_loop_fst, Hn.
    reflexivity.
Qed.

Section DocumentProofs.

Variable py_int : option string -> result Z.
Variable py_float_attr : option string -> result float.
Variable str_int : Z -> string.
Variable str_float : float -> string.

Let extract := extract_lines py_int py_float_attr str_int str_float.
Let process := process_pdf py_int py_float_attr str_int str_float.


(** X12. When the line grouper returns fragments that all are text,
    [process_pdf] raises nothing and returns one record for each line
    with two numerals or more, in the order of the lines, and no other
    record.  The amount of the record is the smallest of [10**20] and the
    numbers the number pass reads in its line; its date, when it has one,
    is two digits, a point and two digits; its text, when it has one, is
    words with one space between them. *)
Theorem process_pdf_normal_records (root : element) (lines : dict line) :
  extract root = Ok lines ->
  (forall l, In l (values lines) -> ~ In PyNone l) ->
  exists data,
    process root = Ok data
    /\ Forall2 (fun l r =>
                  normal_record r
                  /\ exists l1,
                       parse_numbers l = Ok l1
                       /\ amount r = Some (smallest_of (numbers l1)))
               (filter is_payment (values lines)) data.
Proof.
  intros He Hnone. unfold process, process_pdf. fold extract. rewrite He.
  cbn [bind].
  destruct (extract_pages_invariant py_int py_float_attr str_int str_float
              (findall "LTPage" root) 0 [] lines) as (Hwf & Hfr & _);
    [split; [constructor | split; [constructor | reflexivity]] | exact He |].
  apply process_lines_payments; [assumption |].
  intros l Hl. rewrite Forall_forall in Hfr. destruct (Hfr l Hl) as [_ Hn].
  apply fragments_text; [assumption | apply Hnone; assumption].
Qed.

(** X13. [process_pdf] hands on what the line grouper raises, and raises
    [AttributeError] itself when a fragment is [None], the text of a text
    box that has none. *)
Theorem process_pdf_raises (root : element) :
  (forall e, extract root = Raise e -> process root = Raise e)
  /\ (forall lines,
        extract root = Ok lines ->
        (exists l, In l (values lines) /\ In PyNone l) ->
        process root = Raise AttributeError).
Proof.
  unfold process, process_pdf. fold extract. split.
  - intros e He. rewrite He. reflexivity.
  - intros lines He (l & Hl & Hnone). rewrite He. cbn [bind].
    destruct (extract_pages_invariant py_int py_float_attr str_int str_float
                (findall "LTPage" root) 0 [] lines) as (Hwf & _ & _);
      [split; [constructor | split; [constructor | reflexivity]] | exact He |].
    apply process_lines_needs_text; [assumption |].
    exists l. split; [assumption | apply none_not_text; assumption].
Qed.

End DocumentProofs.


Lemma process_pdf_normal_records_witness :
  let lines := [("P1L8658997116363866p-44", [PyStr "Indsat "; PyStr "dato "]);
                ("P1L8241006775948542p-44",
                 [PyStr "494,42 - "; PyStr "3.291,68 "; PyStr "+ ";
                  PyStr "Gjensidige Forsikring, D "; PyStr "03.10 ";
                  PyStr "03.10 "])] in
  process_pdf example_int example_float example_str_int example_str_float
    example_statement
  = Ok [mk_record (Some (Float (S754_finite true 8697928624080159 (-44))))
                  (Some "03.10") (Some "Gjensidige Forsikring D")]
  /\ exists data,
       process_pdf example_int example_float example_str_int
         example_str_float example_statement = Ok data
       /\ Forall2 (fun l r =>
                     normal_record r
                     /\ exists l1,
                          parse_numbers l = Ok l1
                          /\ amount r = Some (smallest_of (numbers l1)))
                  (filter is_payment (values lines)) data.
Proof.
  split; [vm_compute; reflexivity |].
  apply process_pdf_normal_records.
  - vm_compute. reflexivity.
  - simpl. intros l [<- | [<- | []]]; simpl; intros H;
      repeat (destruct H as [H | H]; [discriminate H |]); exact H.
Defined.

Lemma process_pdf_raises_witness :
  process_pdf example_int example_float example_str_int example_str_float
    example_tree_without_text = Raise AttributeError.
Proof.
  apply (proj2 (process_pdf_raises example_int example_float example_str_int
                  example_str_float example_tree_without_text)
           [("P1L8241006775948542p-44", [PyStr "494,42 - "; PyNone])]).
  - vm_compute. reflexivity.
  - exists [PyStr "494,42 - "; PyNone].
    split; [left; reflexivity | right; left; reflexivity].
Defined.

(** *** The characters the text pass keeps *)

Lemma keep_append (p : ascii -> bool) (x y : string) :
  keep p (x ++ y) = (keep p x ++ keep p y)%string.
Proof.
  induction x as [| c x IH]; simpl; [reflexivity |].
  destruct (p c); simpl; rewrite IH; reflexivity.
Qed.

Lemma keep_all (p : ascii -> bool) (s : string) :
  all_chars p s = true -> keep p s = s.
Proof.
  induction s as [| c s IH]; simpl; [reflexivity |].
  intros H. apply andb_true_iff in H. destruct H as [Hc Hs].
  rewrite Hc, IH by assumption. reflexivity.
Qed.

Lemma word_runs_keep (s : string) :
  forall cur,
    fold_right String.append EmptyString (word_runs cur s)
    = (cur ++ keep is_word s)%string.
Proof.
  induction s as [| c s IH]; intros cur; simpl.
  - destruct cur; simpl; [reflexivity | rewrite !append_nil_r; reflexivity].
  - destruct (is_word c).
    + rewrite IH, append_assoc. reflexivity.
    + destruct (is_empty cur) eqn:He.
      * destruct cur; [| discriminate]. apply IH.
      * simpl. rewrite IH. reflexivity.
Qed.

Lemma keep_join (ws : list string) :
  Forall is_run ws ->
  keep is_word (join " " ws) = fold_right String.append EmptyString ws.
Proof.
  induction 1 as [| w ws [Hw Hne] Hws IH]; [reflexivity |].
  destruct ws as [| w2 ws].
  - cbn [join fold_right]. rewrite append_nil_r. apply keep_all. assumption.
  - change (join " " (w :: w2 :: ws))
      with (w ++ String " " (join " " (w2 :: ws)))%string.
    rewrite keep_append, (keep_all _ w Hw). cbn [keep].
    replace (is_word " ") with false by reflexivity.
    rewrite IH. reflexivity.
Qed.

Lemma all_chars_keep (p q : ascii -> bool) (s : string) :
  all_chars p s = true -> all_chars p (keep q s) = true.
Proof.
  induction s as [| c s IH]; simpl; [reflexivity |].
  intros H. apply andb_true_iff in H. destruct H as [Hc Hs].
  destruct (q c); simpl; [rewrite Hc |]; auto.
Qed.

Lemma all_chars_words (p : ascii -> bool) (s : string) :
  p " "%char = true ->
  all_chars word_or_space s = true ->
  all_chars p (keep is_word s) = true ->
  all_chars p s = true.
Proof.
  intros Hsp. induction s as [| c s IH]; simpl; [reflexivity |].
  intros Hw Hk. apply andb_true_iff in Hw. destruct Hw as [Hc Hs].
  unfold word_or_space in Hc. destruct (is_word c); simpl in Hc, Hk.
  - apply andb_true_iff in Hk. destruct Hk as [Hpc Hk].
    rewrite Hpc. apply IH; assumption.
  - apply Ascii.eqb_eq in Hc. subst c. rewrite Hsp. apply IH; assumption.
Qed.

(** X14. For a text token that is not a date and holds none of the
    characters on which the engines of the tokenizer differ (the
    superscript digits and the fractions of Latin-1), the text pass keeps
    every word character, in order, and adds none; all it changes is what
    stands between the words, and its result holds none of these
    characters either. *)
Theorem clean_text_keeps_word_characters (s : string) :
  date_pattern s = false ->
  no_other_number s = true ->
  exists s',
    clean_text_token (PyStr s) = Ok (PyStr s')
    /\ keep is_word s' = keep is_word s
    /\ all_chars word_or_space s' = true
    /\ no_other_number s' = true.
Proof.
  intros Hd Hs. exists (join " " (tokenize s)).
  unfold clean_text_token. rewrite Hd. split; [reflexivity |].
  pose proof (word_runs_runs s EmptyString eq_refl) as Hruns.
  fold (tokenize s) in Hruns.
  assert (Hk : keep is_word (join " " (tokenize s)) = keep is_word s).
  { rewrite (keep_join _ Hruns). unfold tokenize. apply word_runs_keep. }
  assert (Hw : all_chars word_or_space (join " " (tokenize s)) = true)
    by (apply join_chars; assumption).
  split; [assumption |]. split; [assumption |].
  unfold no_other_number in *.
  apply all_chars_words; [reflexivity | assumption |].
  rewrite Hk. apply all_chars_keep. assumption.
Qed.

Lemma clean_text_keeps_word_characters_witness :
  exists s',
    clean_text_token (PyStr "Gjensidige Forsikring, D ") = Ok (PyStr s')
    /\ keep is_word s' = keep is_word "Gjensidige Forsikring, D "
    /\ all_chars word_or_space s' = true
    /\ no_other_number s' = true.
Proof.
  apply clean_text_keeps_word_characters; reflexivity.
Defined.

Lemma lt_SFltb_witness :
  lt (Float (S754_finite true 8697928624080159 (-44)))
     (Float (S754_finite false 7238480869835407 (-41)))
  = SFltb (S754_finite true 8697928624080159 (-44))
          (S754_finite false 7238480869835407 (-41)).
Proof.
  apply lt_SFltb; reflexivity.
Defined.
